(** * Constant folding of LOGICAL-valued expressions

  A shallow embedding of [flang/lib/Evaluate/fold-logical.cpp]: the
  intrinsic fold dispatcher [FoldIntrinsicFunction], the relational folder
  and the logical / not folders.  Templates over [Type<category, KIND>]
  become functions that take the category and the kind as data; the
  folding context is threaded explicitly; [CHECK], [DIE] and a failed
  [std::optional::value] become the [Abort] outcome. *)

From Stdlib Require Import ZArith List String Bool Lia.
Import ListNotations.

Local Open Scope string_scope.
Local Open Scope Z_scope.
Local Open Scope list_scope.

(** ** Semantic types *)

Inductive TypeCategory :=
Integer | Real | Complex | Character | Logical | Derived.

Definition TypeCategory_eqb (a b : TypeCategory) : bool :=
match a, b with
| Integer, Integer | Real, Real | Complex, Complex
| Character, Character | Logical, Logical | Derived, Derived => true
| _, _ => false
end.

Record DynamicType := mkType { category : TypeCategory; kind : Z }.

(** [LargestInt] is [Type<Integer, 16>]; its scalar is the 128-bit
  [BOZLiteralConstant] (the [static_assert] in the BGE branch). *)
Definition LargestInt : Z := 16.
(** [LogicalResult], the type of every folded comparison. *)
Definition LogicalResult : Z := 4.
(** [DefaultReal] and [Int64] as the dispatcher declares them. *)
Definition DefaultReal : Z := 4.
Definition Int64 : Z := 8.

(** Bit width of an integer of kind [k]. *)
Definition bits (k : Z) : Z := 8 * k.

(** ** Operators and comparison results *)

Module RelationalOperator.
Inductive t := LT | LE | EQ | NE | GE | GT.
Definition eqb (a b : t) : bool :=
  match a, b with
  | LT, LT | LE, LE | EQ, EQ | NE, NE | GE, GE | GT, GT => true
  | _, _ => false
  end.
End RelationalOperator.

Module LogicalOperator.
Inductive t := And | Or | Eqv | Neqv | Not.
End LogicalOperator.

Module Ordering.
Inductive t := Less | Equal | Greater.
End Ordering.

Module Relation.
Inductive t := Less | Equal | Greater | Unordered.
End Relation.

Module RoundingMode.
Inductive t := TiesToEven | ToZero | Down | Up | TiesAwayFromZero.
End RoundingMode.

Module RealFlag.
Inductive t := Overflow | DivideByZero | InvalidArgument | Underflow | Inexact.
Definition eqb (a b : t) : bool :=
  match a, b with
  | Overflow, Overflow | DivideByZero, DivideByZero
  | InvalidArgument, InvalidArgument | Underflow, Underflow
  | Inexact, Inexact => true
  | _, _ => false
  end.
End RealFlag.

(** [RealFlags] is a set of flags; [test] is [flags.test(f)]. *)
Definition RealFlags := list RealFlag.t.
Definition test (fl : RealFlags) (f : RealFlag.t) : bool :=
existsb (RealFlag.eqb f) fl.

Record ValueWithRealFlags (A : Type) := mkVWRF { rvalue : A; flags : RealFlags }.
Arguments mkVWRF {A} _ _.
Arguments rvalue {A} _.
Arguments flags {A} _.

Record ValueWithOverflow := mkVWO { value : Z; overflow : bool }.

(** ** Constants and expressions *)

(** [Constant<T>]: the element values in array element order and the
  extents; an empty [shape] is a scalar. *)
Record Constant (A : Type) := mkConstant { values : list A; shape : list Z }.
Arguments mkConstant {A} _ _.
Arguments values {A} _.
Arguments shape {A} _.

Definition ScalarConstant {A} (a : A) : Constant A := mkConstant [a] [].

(** An actual argument is an expression or an assumed-type dummy. *)
Inductive ActualArgumentOf (E : Type) :=
| ArgExpr (e : E)
| ArgAssumedType (symbol : string).
Arguments ArgExpr {E} _.
Arguments ArgAssumedType {E} _.

(** The callee of a [FunctionRef]: [proc().u]. *)
Inductive ProcedureDesignator :=
| SpecificIntrinsic (name : string)
| ProcedureSymbol (symbol : string).

Section Expressions.

(** The scalar of a REAL constant.  The real-number library
    ([Fortran::evaluate::value::Real]) is a collaborator of the folder;
    one carrier stands for every REAL kind and the kind travels with the
    constant. *)
Variable R : Type.

(** The variants of [Expr<SomeType>] the logical folder looks at.  Integer
    scalars are bit patterns, [0 <= raw < 2 ^ bits k].  [Opaque] stands
    for every variant the folder passes through untouched (designators,
    calls of other types, arithmetic). *)
#[warnings="-register-all"]
Inductive Expr :=
| IntegerConstant (k : Z) (c : Constant Z)
| RealConstant (k : Z) (c : Constant R)
| ComplexConstant (k : Z) (c : Constant (R * R))
| CharacterConstant (k : Z) (c : Constant (list Z))
| LogicalConstant (k : Z) (c : Constant bool)
| BOZLiteralConstant (raw : Z)
| NullPointer
| Opaque (type : DynamicType) (rank : nat) (symbol : string)
| Convert (to : DynamicType) (operand : Expr)
| Relational (operands : DynamicType) (opr : RelationalOperator.t)
    (left right : Expr)
| LogicalOperation (k : Z) (logicalOperator : LogicalOperator.t)
    (left right : Expr)
| Not (k : Z) (operand : Expr)
| FunctionRef (KIND : Z) (rank : nat) (proc : ProcedureDesignator)
    (arguments : list (option (ActualArgumentOf Expr))).

Definition ActualArgument := ActualArgumentOf Expr.
Definition ActualArguments := list (option ActualArgument).

(** [GetType]: BOZ literals and NULL() are typeless. *)
Definition GetType (e : Expr) : option DynamicType :=
  match e with
  | IntegerConstant k _ => Some (mkType Integer k)
  | RealConstant k _ => Some (mkType Real k)
  | ComplexConstant k _ => Some (mkType Complex k)
  | CharacterConstant k _ => Some (mkType Character k)
  | LogicalConstant k _ => Some (mkType Logical k)
  | BOZLiteralConstant _ => None
  | NullPointer => None
  | Opaque t _ _ => Some t
  | Convert t _ => Some t
  | Relational _ _ _ _ => Some (mkType Logical LogicalResult)
  | LogicalOperation k _ _ _ => Some (mkType Logical k)
  | Not k _ => Some (mkType Logical k)
  | FunctionRef k _ _ _ => Some (mkType Logical k)
  end.

Fixpoint Rank (e : Expr) : nat :=
  match e with
  | IntegerConstant _ c => List.length (shape c)
  | RealConstant _ c => List.length (shape c)
  | ComplexConstant _ c => List.length (shape c)
  | CharacterConstant _ c => List.length (shape c)
  | LogicalConstant _ c => List.length (shape c)
  | BOZLiteralConstant _ => O
  | NullPointer => O
  | Opaque _ r _ => r
  | Convert _ x => Rank x
  | Relational _ _ x y => Nat.max (Rank x) (Rank y)
  | LogicalOperation _ _ x y => Nat.max (Rank x) (Rank y)
  | Not _ x => Rank x
  | FunctionRef _ r _ _ => r
  end.

(** ** Argument access *)

(** [args[i]]: a position past the end of the vector reads as an absent
    argument.  The source indexes unchecked, so this is the source's
    behaviour only on vectors that have the slot (the intrinsic table gives
    every call one slot per dummy argument); see [ResolvedCall]. *)
Definition arg (args : ActualArguments) (i : nat) : option ActualArgument :=
  match nth_error args i with
  | Some a => a
  | None => None
  end.

(** [*args[i] = e]. *)
Fixpoint set_arg (i : nat) (e : Expr) (args : ActualArguments)
  : ActualArguments :=
  match args, i with
  | [], _ => []
  | _ :: rest, O => Some (ArgExpr e) :: rest
  | a :: rest, S j => a :: set_arg j e rest
  end.

(** [UnwrapExpr<Expr<SomeType>>(arg)]. *)
Definition UnwrapExpr (a : option ActualArgument) : option Expr :=
  match a with
  | Some (ArgExpr e) => Some e
  | _ => None
  end.

Definition HasCategory (cat : TypeCategory) (e : Expr) : bool :=
  match GetType e with
  | Some t => TypeCategory_eqb (category t) cat
  | None => false
  end.

(** [UnwrapExpr<Expr<SomeKind<cat>>>(arg)]: the expression, when it is of
    category [cat]. *)
Definition UnwrapSome (cat : TypeCategory) (a : option ActualArgument)
  : option Expr :=
  match UnwrapExpr a with
  | Some e => if HasCategory cat e then Some e else None
  | None => None
  end.

(** The kind a typed expression was instantiated at (what [std::visit]
    over [Expr<SomeKind<cat>>::u] selects). *)
Definition KindOf (e : Expr) : Z :=
  match GetType e with
  | Some t => kind t
  | None => 0
  end.

End Expressions.

Arguments IntegerConstant {R} _ _.
Arguments RealConstant {R} _ _.
Arguments ComplexConstant {R} _ _.
Arguments CharacterConstant {R} _ _.
Arguments LogicalConstant {R} _ _.
Arguments BOZLiteralConstant {R} _.
Arguments NullPointer {R}.
Arguments Opaque {R} _ _ _.
Arguments Convert {R} _ _.
Arguments Relational {R} _ _ _ _.
Arguments LogicalOperation {R} _ _ _ _.
Arguments Not {R} _ _.
Arguments FunctionRef {R} _ _ _ _.
Arguments GetType {R} _.
Arguments Rank {R} _.
Arguments arg {R} _ _.
Arguments set_arg {R} _ _ _.
Arguments UnwrapExpr {R} _.
Arguments HasCategory {R} _ _.
Arguments UnwrapSome {R} _ _.
Arguments KindOf {R} _.

(** ** The folding context *)

(** A diagnostic: the message text and its formatted argument. *)
Record Message := mkMessage { text : string; argument : Z }.

(** [FoldingContext]: [messages] is the sink the context points at;
    [None] is the detached sink of a [DiscardMessages] scope. *)
Record FoldingContext := mkContext { messages : option (list Message) }.

(** Modelled from the spec: the diagnostic append API [messages().Say]
    (message.h is not among the sources): the message is appended to the
    current sink; a suppressed scope collects nothing. *)
Definition Say (ctx : FoldingContext) (m : Message) : FoldingContext :=
match messages ctx with
| Some ms => mkContext (Some (ms ++ [m]))
| None => ctx
end.

(** Modelled from the spec: [messages().DiscardMessages()] redirects
    emission to a no-op collector on entry; the restorer puts the prior
    sink back when the scope is left. *)
Definition DiscardMessages (ctx : FoldingContext) : FoldingContext :=
mkContext None.

Definition Restore (saved : FoldingContext) (ctx : FoldingContext)
  : FoldingContext :=
mkContext (messages saved).

(** ** Outcomes *)

(** A fold returns normally or aborts ([CHECK], [DIE], [common::die], an
    exception out of [std::optional::value] or [std::vector::at]). *)
Inductive Outcome (A : Type) :=
| Ok (a : A)
| Abort (why : string).
Arguments Ok {A} _.
Arguments Abort {A} _.

(** ** Scalar primitives of the integer and logical value classes *)

(** Modelled from the spec: the signed reading of a [bits k]-wide pattern
    (integer.h is not among the sources). *)
Definition SignedValue (k raw : Z) : Z :=
let u := raw mod 2 ^ bits k in
if u <? 2 ^ (bits k - 1) then u else u - 2 ^ bits k.

(** Modelled from the spec: [ToInt64], the low 64 bits read as a signed
    integer, sign-extended when the pattern is narrower. *)
Definition ToInt64 (k raw : Z) : Z :=
let w := Z.min (bits k) 64 in
let u := raw mod 2 ^ w in
if u <? 2 ^ (w - 1) then u else u - 2 ^ w.

(** Modelled from the spec: [Scalar<to>::ConvertUnsigned], zero extension
    (or truncation) of a bit pattern to [bits to] bits. *)
Definition ConvertUnsigned (to raw : Z) : ValueWithOverflow :=
mkVWO (raw mod 2 ^ bits to) (negb (raw <? 2 ^ bits to)).

(** Modelled from the spec: [Scalar<to>::ConvertSigned]; the overflow flag
    is set when the signed value does not fit [bits to] bits. *)
Definition ConvertSigned (to from raw : Z) : ValueWithOverflow :=
let s := SignedValue from raw in
mkVWO (s mod 2 ^ bits to)
  (negb ((- 2 ^ (bits to - 1) <=? s) && (s <? 2 ^ (bits to - 1)))).

(** Modelled from the spec: the unsigned comparisons of two patterns of
    the same width. *)
Definition BGE (i j : Z) : bool := j <=? i.
Definition BGT (i j : Z) : bool := j <? i.
Definition BLE (i j : Z) : bool := i <=? j.
Definition BLT (i j : Z) : bool := i <? j.

(** Modelled from the spec: [CompareSigned]. *)
Definition CompareSigned (k a b : Z) : Ordering.t :=
match SignedValue k a ?= SignedValue k b with
| Lt => Ordering.Less
| Eq => Ordering.Equal
| Gt => Ordering.Greater
end.

(** The logical value class: [AND], [OR], [NEQV] and [IsTrue]. *)
Definition AND (x y : bool) : bool := x && y.
Definition OR (x y : bool) : bool := x || y.
Definition NEQV (x y : bool) : bool := xorb x y.
Definition IsTrue (x : bool) : bool := x.

(** Modelled from the spec: [Satisfies(opr, Ordering)] (common.h is not
    among the sources). *)
Definition SatisfiesOrdering (opr : RelationalOperator.t) (o : Ordering.t)
  : bool :=
match o, opr with
| Ordering.Less, (RelationalOperator.LT | RelationalOperator.LE
                 | RelationalOperator.NE) => true
| Ordering.Equal, (RelationalOperator.LE | RelationalOperator.EQ
                  | RelationalOperator.GE) => true
| Ordering.Greater, (RelationalOperator.NE | RelationalOperator.GE
                    | RelationalOperator.GT) => true
| _, _ => false
end.

(** Modelled from the spec: [Satisfies(opr, Relation)]; an unordered
    comparison satisfies only NE ("EQ is false, NE is true, and all ordering
    operators LT/LE/GT/GE are false"). *)
Definition Satisfies (opr : RelationalOperator.t) (r : Relation.t) : bool :=
match r with
| Relation.Less => SatisfiesOrdering opr Ordering.Less
| Relation.Equal => SatisfiesOrdering opr Ordering.Equal
| Relation.Greater => SatisfiesOrdering opr Ordering.Greater
| Relation.Unordered => RelationalOperator.eqb opr RelationalOperator.NE
end.

(** ** The collaborators *)

(** The numeric library the folder calls per (category, kind): the spec
    treats it as a black box, so do we.  Kinds are passed where the C++
    code selects a template instance. *)
Record ScalarLibrary (R : Type) := mkLibrary {
  (** [x.BTEST(pos)] on an integer of kind [k]. *)
  BTEST : Z -> Z -> Z -> bool;
  IsFinite : R -> bool;
  IsNotANumber : R -> bool;
  IsNegative : R -> bool;
  IsNormal : R -> bool;
  (** [x.Compare(y)] on reals. *)
  Compare : R -> R -> Relation.t;
  (** [x.Equals(y)] on complex values. *)
  Equals : R * R -> R * R -> bool;
  (** [Compare(x, y)] on character values. *)
  CharacterCompare : list Z -> list Z -> Ordering.t;
  (** [Scalar<Real mold>::FromInteger(elt)], [elt] of integer kind. *)
  FromInteger : Z -> Z -> Z -> ValueWithRealFlags R;
  (** [Scalar<Real mold>::Convert(elt)], [elt] of real kind. *)
  ConvertReal : Z -> Z -> R -> ValueWithRealFlags R;
  (** [elt.ToInteger<Scalar<Integer mold>>(mode)], [elt] of real kind. *)
  ToInteger : Z -> Z -> RoundingMode.t -> R -> ValueWithRealFlags Z
}.
Arguments BTEST {R} _ _ _ _.
Arguments IsFinite {R} _ _.
Arguments IsNotANumber {R} _ _.
Arguments IsNegative {R} _ _.
Arguments IsNormal {R} _ _.
Arguments Compare {R} _ _ _.
Arguments Equals {R} _ _ _.
Arguments CharacterCompare {R} _ _ _.
Arguments FromInteger {R} _ _ _ _.
Arguments ConvertReal {R} _ _ _ _.
Arguments ToInteger {R} _ _ _ _ _.

(** The rest of the front end the folder calls into. *)
Record Collaborators (R : Type) := mkCollaborators {
  (** The general folding driver [Fold(context, expr)]. *)
  Fold : FoldingContext -> Expr R -> Expr R * FoldingContext;
  (** [DynamicType::ExtendsTypeOf] and [DynamicType::SameTypeAs]. *)
  ExtendsTypeOf : DynamicType -> DynamicType -> option bool;
  SameTypeAs : DynamicType -> DynamicType -> option bool;
  (** The type [ActualArgument::GetType] reports for an assumed-type
      dummy. *)
  AssumedTypeType : option DynamicType;
  (** [IsContiguous] of an expression and of an assumed-type dummy. *)
  IsContiguous : Expr R -> FoldingContext -> option bool;
  IsContiguousDummy : string -> FoldingContext -> option bool;
  (** [GetConstantExtents(context, expr)]. *)
  GetConstantExtents : FoldingContext -> Expr R -> option (list Z);
  (** [FoldDotProduct<T>(context, funcRef)] of fold-reduction.h. *)
  FoldDotProduct :
    FoldingContext -> Expr R -> Outcome (Expr R * FoldingContext);
  (** [ApplyElementwise] on operands that are not all scalar. *)
  MapElementwise : FoldingContext -> Expr R -> option (Expr R);
  (** The two reserved status codes of magic-numbers.h. *)
  FORTRAN_RUNTIME_IOSTAT_END : Z;
  FORTRAN_RUNTIME_IOSTAT_EOR : Z
}.
Arguments Fold {R} _ _ _.
Arguments ExtendsTypeOf {R} _ _ _.
Arguments SameTypeAs {R} _ _ _.
Arguments AssumedTypeType {R} _.
Arguments IsContiguous {R} _ _ _.
Arguments IsContiguousDummy {R} _ _ _.
Arguments GetConstantExtents {R} _ _ _.
Arguments FoldDotProduct {R} _ _ _.
Arguments MapElementwise {R} _ _ _.
Arguments FORTRAN_RUNTIME_IOSTAT_END {R} _.
Arguments FORTRAN_RUNTIME_IOSTAT_EOR {R} _.

(** ** Helpers of the folding framework *)

Section Framework.

Variable R : Type.
Variable lib : ScalarLibrary R.
Variable env : Collaborators R.

Local Abbreviation Expr := (Expr R).
Local Abbreviation ActualArguments := (ActualArguments R).
Local Abbreviation ActualArgument := (ActualArgument R).

(** Modelled from the spec: [IsActuallyConstant] (tools.h is not among the
    sources): the expression is a compile-time constant. *)
Definition IsActuallyConstant (e : Expr) : bool :=
match e with
| IntegerConstant _ _ | RealConstant _ _ | ComplexConstant _ _
| CharacterConstant _ _ | LogicalConstant _ _ => true
| _ => false
end.

(** Modelled from the spec: [IsNullPointer]: the expression is
    syntactically a null-pointer literal. *)
Definition IsNullPointer (e : Expr) : bool :=
match e with
| NullPointer => true
| _ => false
end.

(** [ActualArgument::GetType]. *)
Definition ArgGetType (a : ActualArgument) : option DynamicType :=
match a with
| ArgExpr e => GetType e
| ArgAssumedType _ => AssumedTypeType env
end.

(** [Constant<T>::GetScalarValue]: the value of a rank-0 constant. *)
Definition GetScalarValue {A} (c : Constant A) : option A :=
match shape c, values c with
| [], a :: _ => Some a
| _, _ => None
end.

(** [GetScalarConstantValue<T>(expr)], by category of [T]. *)
Definition GetScalarInteger (e : Expr) : option Z :=
match e with IntegerConstant _ c => GetScalarValue c | _ => None end.
Definition GetScalarReal (e : Expr) : option R :=
match e with RealConstant _ c => GetScalarValue c | _ => None end.
Definition GetScalarComplex (e : Expr) : option (R * R) :=
match e with ComplexConstant _ c => GetScalarValue c | _ => None end.
Definition GetScalarCharacter (e : Expr) : option (list Z) :=
match e with CharacterConstant _ c => GetScalarValue c | _ => None end.
Definition GetScalarLogical (e : Expr) : option bool :=
match e with LogicalConstant _ c => GetScalarValue c | _ => None end.

(** [Expr<T>{b}], a scalar logical constant of kind [KIND]. *)
Definition LogicalScalar (KIND : Z) (b : bool) : Expr :=
LogicalConstant KIND (ScalarConstant b).

(** [ConvertToType<T>(x)]: no conversion node when [x] already has the
    type. *)
Definition ConvertToType (t : DynamicType) (x : Expr) : Expr :=
match GetType x with
| Some t' =>
    if TypeCategory_eqb (category t') (category t) && (kind t' =? kind t)
    then x else Convert t x
| None => Convert t x
end.

(** *** Elemental intrinsics *)

(** The constant of kind [k] an argument holds, per category. *)
Definition IntegerArgument (k : Z) (a : option ActualArgument)
  : option (Constant Z) :=
match UnwrapExpr a with
| Some (IntegerConstant k' c) => if k' =? k then Some c else None
| _ => None
end.

Definition RealArgument (k : Z) (a : option ActualArgument)
  : option (Constant R) :=
match UnwrapExpr a with
| Some (RealConstant k' c) => if k' =? k then Some c else None
| _ => None
end.

Fixpoint shape_eqb (s t : list Z) : bool :=
match s, t with
| [], [] => true
| a :: s', b :: t' => (a =? b) && shape_eqb s' t'
| _, _ => false
end.

(** The operand pairs of an elemental call and the shape of its result: a
    scalar operand is paired with every element of an array operand. *)
Definition Conform {A B} (ca : Constant A) (cb : Constant B)
  : option (list (A * B) * list Z) :=
match shape ca, shape cb with
| [], [] =>
    match values ca, values cb with
    | a :: _, b :: _ => Some ([(a, b)], [])
    | _, _ => None
    end
| _ :: _, [] =>
    match values cb with
    | b :: _ => Some (map (fun a => (a, b)) (values ca), shape ca)
    | [] => None
    end
| [], _ :: _ =>
    match values ca with
    | a :: _ => Some (map (fun b => (a, b)) (values cb), shape cb)
    | [] => None
    end
| sa, sb =>
    if shape_eqb sa sb then Some (combine (values ca) (values cb), sa)
    else None
end.

(** A scalar function may write to the context (BTEST does); the elements
    are evaluated in array element order. *)
Fixpoint MapScalar {A} (f : A -> FoldingContext -> bool * FoldingContext)
  (xs : list A) (ctx : FoldingContext) : list bool * FoldingContext :=
match xs with
| [] => ([], ctx)
| x :: rest =>
    let (b, ctx1) := f x ctx in
    let (bs, ctx2) := MapScalar f rest ctx1 in
    (b :: bs, ctx2)
end.

(** Modelled from the spec: [FoldElementalIntrinsic<T, TA>] with one
    argument (fold-implementation.h is not among the sources): when the
    argument is a constant of type [TA] the scalar function is applied to
    every element and the result keeps the shape; otherwise the call is
    returned. *)
Definition FoldElementalIntrinsic1 {A}
  (get : option ActualArgument -> option (Constant A))
  (f : A -> FoldingContext -> bool * FoldingContext)
  (ctx : FoldingContext) (KIND : Z) (rank : nat) (proc : ProcedureDesignator)
  (args : ActualArguments) : Expr * FoldingContext :=
match get (arg args 0) with
| Some c =>
    let (bs, ctx') := MapScalar f (values c) ctx in
    (LogicalConstant KIND (mkConstant bs (shape c)), ctx')
| None => (FunctionRef KIND rank proc args, ctx)
end.

(** Modelled from the spec: [FoldElementalIntrinsic<T, TA, TB>] with two
    arguments: both must be constants of their types; conformance of two
    array operands is guaranteed upstream, and a call whose operands do not
    conform is returned as it is. *)
Definition FoldElementalIntrinsic2 {A B}
  (getA : option ActualArgument -> option (Constant A))
  (getB : option ActualArgument -> option (Constant B))
  (f : A -> B -> FoldingContext -> bool * FoldingContext)
  (ctx : FoldingContext) (KIND : Z) (rank : nat) (proc : ProcedureDesignator)
  (args : ActualArguments) : Expr * FoldingContext :=
match getA (arg args 0), getB (arg args 1) with
| Some ca, Some cb =>
    match Conform ca cb with
    | Some (pairs, shp) =>
        let (bs, ctx') := MapScalar (fun p => f (fst p) (snd p)) pairs ctx in
        (LogicalConstant KIND (mkConstant bs shp), ctx')
    | None => (FunctionRef KIND rank proc args, ctx)
    end
| _, _ => (FunctionRef KIND rank proc args, ctx)
end.

(** *** The reduction engine *)

Definition product (s : list Z) : Z := fold_right Z.mul 1 s.

Definition indices (n : Z) : list Z := map Z.of_nat (seq 0 (Z.to_nat n)).

(** Modelled from the spec: [ProcessReductionArgs] (fold-reduction.h is not
    among the sources): the array argument must be an array-valued logical
    constant and the axis argument, if present, a constant within
    [1 .. rank]; otherwise there is nothing to reduce. *)
Definition ProcessReductionArgs (args : ActualArguments)
  (arrayIndex dimIndex : nat) : option (Constant bool * option Z) :=
match UnwrapExpr (arg args arrayIndex) with
| Some (LogicalConstant _ array) =>
    if (1 <=? List.length (shape array))%nat then
      match arg args dimIndex with
      | None => Some (array, None)
      | Some (ArgExpr (IntegerConstant k d)) =>
          match GetScalarValue d with
          | Some v =>
              let dim := ToInt64 k v in
              if (1 <=? dim) && (dim <=? Z.of_nat (List.length (shape array)))
              then Some (array, Some dim) else None
          | None => None
          end
      | Some _ => None
      end
    else None
| _ => None
end.

(** Modelled from the spec: [DoReduction]: without an axis every element is
    combined with the identity into a scalar; with an axis the reduction
    runs along that axis only, one independent fold per slice, and the
    result is one rank lower.  Elements are in column-major order. *)
Definition DoReduction (array : Constant bool) (dim : option Z)
  (identity : bool) (operation : bool -> bool -> bool) : Constant bool :=
match dim with
| None => mkConstant [fold_left operation (values array) identity] []
| Some d =>
    let i := Z.to_nat (d - 1) in
    let lower := product (firstn i (shape array)) in
    let extent := nth i (shape array) 0 in
    let upper := product (skipn (S i) (shape array)) in
    let slice r :=
      fold_left
        (fun acc j =>
           match nth_error (values array)
                   (Z.to_nat (r mod lower + lower * (j + extent * (r / lower))))
           with
           | Some v => operation acc v
           | None => acc
           end)
        (indices extent) identity in
    mkConstant (map slice (indices (lower * upper)))
      (firstn i (shape array) ++ skipn (S i) (shape array))
end.

(** *** The elementwise applicator *)

(** Modelled from the spec: [ApplyElementwise] returns "no transformation
    applicable" when every operand is rank 0 or an already evaluated
    constant; otherwise the array-shaped rebuild is the collaborator's.
    The operands are taken as the folding driver left them: nothing here
    folds them in place, so the folders below are the source's on operands
    that are constants or designators. *)
Definition ApplyElementwise (ctx : FoldingContext) (operation : Expr)
  (operands : list Expr) : option Expr :=
if forallb (fun x => (Rank x =? 0)%nat || IsActuallyConstant x) operands
then None
else MapElementwise env ctx operation.

End Framework.

Arguments IsActuallyConstant {R} _.
Arguments IsNullPointer {R} _.
Arguments ArgGetType {R} _ _.
Arguments GetScalarInteger {R} _.
Arguments GetScalarReal {R} _.
Arguments GetScalarComplex {R} _.
Arguments GetScalarCharacter {R} _.
Arguments GetScalarLogical {R} _.
Arguments LogicalScalar {R} _ _.
Arguments ConvertToType {R} _ _.
Arguments IntegerArgument {R} _ _.
Arguments RealArgument {R} _ _.
Arguments FoldElementalIntrinsic1 {R A} _ _ _ _ _ _ _.
Arguments FoldElementalIntrinsic2 {R A B} _ _ _ _ _ _ _ _.
Arguments ProcessReductionArgs {R} _ _ _.
Arguments ApplyElementwise {R} _ _ _ _.

(** ** fold-logical.cpp *)

Section FoldLogical.

Variable R : Type.
Variable lib : ScalarLibrary R.
Variable env : Collaborators R.

Local Abbreviation Expr := (Expr R).
Local Abbreviation ActualArguments := (ActualArguments R).
Local Abbreviation Folded := (Outcome (Expr * FoldingContext)).

(** [ZeroExtend]: every value converted, unsigned, to [LargestInt]. *)
Definition ZeroExtend (c : Constant Z) : option Expr :=
Some (IntegerConstant LargestInt
        (mkConstant (map (fun v => value (ConvertUnsigned LargestInt v))
                         (values c))
                    (shape c))).

(** [FoldAllAnyParity], for ALL, ANY and PARITY. *)
Definition FoldAllAnyParity (ctx : FoldingContext) (KIND : Z) (rank : nat)
  (proc : ProcedureDesignator) (args : ActualArguments)
  (operation : bool -> bool -> bool) (identity : bool) : Expr :=
match ProcessReductionArgs args 0 1 with
| Some (array, dim) =>
    LogicalConstant KIND (DoReduction array dim identity operation)
| None => FunctionRef KIND rank proc args
end.

(** The first loop of the BGE/BGT/BLE/BLT branch: [constArgs[i]]. *)
Definition constArg (a : option (ActualArgument R)) : option Expr :=
match UnwrapExpr a with
| Some (BOZLiteralConstant x) =>
    Some (IntegerConstant LargestInt (ScalarConstant x))
| Some (IntegerConstant _ c) => ZeroExtend c
| _ => None
end.

(** The choice of [fptr]; no match is the [common::die] of the branch. *)
Definition BitCompare (name : string) : option (Z -> Z -> bool) :=
if String.eqb name "bge" then Some BGE
else if String.eqb name "bgt" then Some BGT
else if String.eqb name "ble" then Some BLE
else if String.eqb name "blt" then Some BLT
else None.

(** The scalar function of the BTEST branch, [x] of integer kind [IT]. *)
Definition btestScalar (KIND IT : Z) (x pos : Z) (ctx : FoldingContext)
  : bool * FoldingContext :=
let posVal := ToInt64 KIND pos in
let ctx' :=
  if (posVal <? 0) || (posVal >=? bits IT)
  then Say ctx (mkMessage "POS=%jd out of range for BTEST" posVal)
  else ctx in
(BTEST lib IT x posVal, ctx').

(** A pure scalar function as an elemental one. *)
Definition pure1 {A} (f : A -> bool) (x : A) (ctx : FoldingContext)
  : bool * FoldingContext := (f x, ctx).

(** The rounding mode the OUT_OF_RANGE branch derives from [cRound]; a
    constant that is not scalar makes [.value()] throw. *)
Definition roundingModeOf (cRound : option Expr) : Outcome RoundingMode.t :=
match cRound with
| None => Ok RoundingMode.ToZero
| Some r =>
    match GetScalarLogical r with
    | Some b =>
        Ok (if IsTrue b then RoundingMode.TiesAwayFromZero
            else RoundingMode.ToZero)
    | None => Abort "bad optional access"
    end
end.

(** [DEREF(UnwrapExpr<Constant<xType>>(x))] on an expression of integer
    or real category. *)
Definition DerefIntegerConstant (x : Expr) : Outcome (Z * Constant Z) :=
match x with
| IntegerConstant kx xConst => Ok (kx, xConst)
| _ => Abort "nullptr dereference"
end.

Definition DerefRealConstant (x : Expr) : Outcome (Z * Constant R) :=
match x with
| RealConstant kx xConst => Ok (kx, xConst)
| _ => Abort "nullptr dereference"
end.

(** The element loops of the four OUT_OF_RANGE cases. *)
Definition IntegerToReal (mold : Expr) (x : Expr) : Outcome (list bool) :=
match DerefIntegerConstant x with
| Ok (kx, xConst) =>
    Ok (map (fun elt =>
               test (flags (FromInteger lib (KindOf mold) kx elt))
                    RealFlag.Overflow)
            (values xConst))
| Abort why => Abort why
end.

Definition RealToReal (mold : Expr) (x : Expr) : Outcome (list bool) :=
match DerefRealConstant x with
| Ok (kx, xConst) =>
    Ok (map (fun elt =>
               IsFinite lib elt &&
               test (flags (ConvertReal lib (KindOf mold) kx elt))
                    RealFlag.Overflow)
            (values xConst))
| Abort why => Abort why
end.

Definition IntegerToInteger (mold : Expr) (x : Expr) : Outcome (list bool) :=
match DerefIntegerConstant x with
| Ok (kx, xConst) =>
    Ok (map (fun elt => overflow (ConvertSigned (KindOf mold) kx elt))
            (values xConst))
| Abort why => Abort why
end.

Definition RealToInteger (roundingMode : RoundingMode.t) (mold : Expr)
  (x : Expr) : Outcome (list bool) :=
match DerefRealConstant x with
| Ok (kx, xConst) =>
    Ok (map (fun elt =>
               negb (IsFinite lib elt) ||
               test (flags (ToInteger lib (KindOf mold) kx roundingMode elt))
                    RealFlag.Overflow)
            (values xConst))
| Abort why => Abort why
end.

Definition emplace (r : Outcome (list bool)) : Outcome (option (list bool)) :=
match r with
| Ok bs => Ok (Some bs)
| Abort why => Abort why
end.

(** [cRound] and the guard [!cRound || IsActuallyConstant(...)]. *)
Definition cRoundOf (args : ActualArguments) : option Expr :=
if (3 <=? List.length args)%nat then UnwrapSome Logical (arg args 2)
else None.

Definition RoundIsUsable (args : ActualArguments) : bool :=
match cRoundOf args with
| None => true
| Some _ =>
    match UnwrapExpr (arg args 2) with
    | Some r => IsActuallyConstant r
    | None => false
    end
end.

(** The element results of OUT_OF_RANGE: the [result] vector of the
    branch, [folded] being the folded, actually constant source. *)
Definition OutOfRangeResult (folded : Expr) (args : ActualArguments)
  : Outcome (option (list bool)) :=
match UnwrapSome Real (arg args 1) with
| Some realMold =>
    if HasCategory Integer folded then emplace (IntegerToReal realMold folded)
    else if HasCategory Real folded then emplace (RealToReal realMold folded)
    else Ok None
| None =>
    match UnwrapSome Integer (arg args 1) with
    | Some intMold =>
        if HasCategory Integer folded
        then emplace (IntegerToInteger intMold folded)
        else if RoundIsUsable args then
          if HasCategory Real folded then
            match roundingModeOf (cRoundOf args) with
            | Ok roundingMode =>
                emplace (RealToInteger roundingMode intMold folded)
            | Abort why => Abort why
            end
          else Ok None
        else Ok None
    | None => Ok None
    end
end.

(** The OUT_OF_RANGE branch.  The source argument is folded in place with
    the messages discarded; the restorer puts the sink back on return. *)
Definition FoldOutOfRange (ctx : FoldingContext) (KIND : Z) (rank : nat)
  (proc : ProcedureDesignator) (args : ActualArguments) : Folded :=
match UnwrapExpr (arg args 0) with
| Some cx =>
    let (folded, ctx1) := Fold env (DiscardMessages ctx) cx in
    let args1 := set_arg 0 folded args in
    if IsActuallyConstant folded then
      match OutOfRangeResult folded args1 with
      | Ok (Some result) =>
          match GetConstantExtents env ctx1 folded with
          | Some extents =>
              Ok (LogicalConstant KIND (mkConstant result extents),
                  Restore ctx ctx1)
          | None => Ok (FunctionRef KIND rank proc args1, Restore ctx ctx1)
          end
      | Ok None => Ok (FunctionRef KIND rank proc args1, Restore ctx ctx1)
      | Abort why => Abort why
      end
    else Ok (FunctionRef KIND rank proc args1, Restore ctx ctx1)
| None => Ok (FunctionRef KIND rank proc args, ctx)
end.

(** The precondition shared by the IEEE classification and the I/O status
    rules: [args[0] && args[0]->UnwrapExpr() && IsActuallyConstant(...)]. *)
Definition ConstantOperand (args : ActualArguments) : bool :=
match UnwrapExpr (arg args 0) with
| Some e => IsActuallyConstant e
| None => false
end.

(** The relational operator LGE/LGT/LLE/LLT stand for. *)
Definition CharacterRelation (name : string) : RelationalOperator.t :=
if String.eqb name "lge" then RelationalOperator.GE
else if String.eqb name "lgt" then RelationalOperator.GT
else if String.eqb name "lle" then RelationalOperator.LE
else RelationalOperator.LT.

Definition Ascii : DynamicType := mkType Character 1.

(** The type inquiry shared by EXTENDS_TYPE_OF and SAME_TYPE_AS. *)
Definition TypeInquiry (query : DynamicType -> DynamicType -> option bool)
  (args : ActualArguments) : option bool :=
match arg args 0, arg args 1 with
| Some a0, Some a1 =>
    match ArgGetType env a0, ArgGetType env a1 with
    | Some t0, Some t1 => query t0 t1
    | _, _ => None
    end
| _, _ => None
end.

Definition IeeeSupportNames : list string :=
[ "__builtin_ieee_support_datatype"; "__builtin_ieee_support_denormal";
  "__builtin_ieee_support_divide"; "__builtin_ieee_support_inf";
  "__builtin_ieee_support_io"; "__builtin_ieee_support_nan";
  "__builtin_ieee_support_sqrt"; "__builtin_ieee_support_standard";
  "__builtin_ieee_support_subnormal";
  "__builtin_ieee_support_underflow_control" ].

Definition isOneOf (name : string) (names : list string) : bool :=
existsb (String.eqb name) names.

(** [FoldIntrinsicFunction<KIND>]: the intrinsic fold dispatcher. *)
Definition FoldIntrinsicFunction (ctx : FoldingContext) (KIND : Z)
  (rank : nat) (proc : ProcedureDesignator) (args : ActualArguments)
  : Folded :=
let funcRef := FunctionRef KIND rank proc args in
match proc with
| ProcedureSymbol _ => Abort "CHECK(intrinsic) failed"
| SpecificIntrinsic name =>
  if String.eqb name "all" then
    Ok (FoldAllAnyParity ctx KIND rank proc args AND true, ctx)
  else if String.eqb name "any" then
    Ok (FoldAllAnyParity ctx KIND rank proc args OR false, ctx)
  else if String.eqb name "associated" then
    let gotConstant :=
      match UnwrapExpr (arg args 0) with
      | None => false
      | Some firstArgExpr =>
          if negb (IsNullPointer firstArgExpr) then false
          else
            match arg args 1 with
            | Some a1 =>
                match UnwrapExpr (Some a1) with
                | None => false
                | Some secondArgExpr => IsNullPointer secondArgExpr
                end
            | None => true
            end
      end in
    Ok (if gotConstant then LogicalScalar KIND false else funcRef, ctx)
  else if isOneOf name ["bge"; "bgt"; "ble"; "blt"] then
    match constArg (arg args 0), constArg (arg args 1) with
    | Some c0, Some c1 =>
        match BitCompare name with
        | Some fptr =>
            let args' := set_arg 1 c1 (set_arg 0 c0 args) in
            Ok (FoldElementalIntrinsic2
                  (IntegerArgument LargestInt) (IntegerArgument LargestInt)
                  (fun i j c => (fptr i j, c))
                  ctx KIND rank proc args')
        | None => Abort "missing case to fold intrinsic function"
        end
    | _, _ => Ok (funcRef, ctx)
    end
  else if String.eqb name "btest" then
    match UnwrapSome Integer (arg args 0) with
    | Some ix =>
        Ok (FoldElementalIntrinsic2
              (IntegerArgument (KindOf ix)) (IntegerArgument KIND)
              (btestScalar KIND (KindOf ix))
              ctx KIND rank proc args)
    | None => Ok (funcRef, ctx)
    end
  else if String.eqb name "dot_product" then
    FoldDotProduct env ctx funcRef
  else if String.eqb name "extends_type_of" then
    match TypeInquiry (ExtendsTypeOf env) args with
    | Some result => Ok (LogicalScalar KIND result, ctx)
    | None => Ok (funcRef, ctx)
    end
  else if isOneOf name ["isnan"; "__builtin_ieee_is_nan"] then
    if ConstantOperand args then
      let (e, ctx1) :=
        FoldElementalIntrinsic1 (RealArgument DefaultReal)
          (pure1 (IsNotANumber lib)) (DiscardMessages ctx) KIND rank proc args
      in Ok (e, Restore ctx ctx1)
    else Ok (funcRef, ctx)
  else if String.eqb name "__builtin_ieee_is_negative" then
    if ConstantOperand args then
      let (e, ctx1) :=
        FoldElementalIntrinsic1 (RealArgument DefaultReal)
          (pure1 (IsNegative lib)) (DiscardMessages ctx) KIND rank proc args
      in Ok (e, Restore ctx ctx1)
    else Ok (funcRef, Restore ctx (DiscardMessages ctx))
  else if String.eqb name "__builtin_ieee_is_normal" then
    if ConstantOperand args then
      let (e, ctx1) :=
        FoldElementalIntrinsic1 (RealArgument DefaultReal)
          (pure1 (IsNormal lib)) (DiscardMessages ctx) KIND rank proc args
      in Ok (e, Restore ctx ctx1)
    else Ok (funcRef, Restore ctx (DiscardMessages ctx))
  else if String.eqb name "is_contiguous" then
    match args with
    | [] => Abort "std::out_of_range"
    | None :: _ => Ok (funcRef, ctx)
    | Some (ArgExpr expr) :: _ =>
        match IsContiguous env expr ctx with
        | Some contiguous => Ok (LogicalScalar KIND contiguous, ctx)
        | None => Ok (funcRef, ctx)
        end
    | Some (ArgAssumedType assumedType) :: _ =>
        match IsContiguousDummy env assumedType ctx with
        | Some contiguous => Ok (LogicalScalar KIND contiguous, ctx)
        | None => Ok (funcRef, ctx)
        end
    end
  else if String.eqb name "is_iostat_end" then
    if ConstantOperand args then
      Ok (FoldElementalIntrinsic1 (IntegerArgument Int64)
            (pure1 (fun x => ToInt64 Int64 x =? FORTRAN_RUNTIME_IOSTAT_END env))
            ctx KIND rank proc args)
    else Ok (funcRef, ctx)
  else if String.eqb name "is_iostat_eor" then
    if ConstantOperand args then
      Ok (FoldElementalIntrinsic1 (IntegerArgument Int64)
            (pure1 (fun x => ToInt64 Int64 x =? FORTRAN_RUNTIME_IOSTAT_EOR env))
            ctx KIND rank proc args)
    else Ok (funcRef, ctx)
  else if isOneOf name ["lge"; "lgt"; "lle"; "llt"] then
    match UnwrapSome Character (arg args 0),
          UnwrapSome Character (arg args 1) with
    | Some cx0, Some cx1 =>
        Ok (Fold env ctx
              (ConvertToType (mkType Logical KIND)
                 (Relational Ascii (CharacterRelation name)
                    (ConvertToType Ascii cx0) (ConvertToType Ascii cx1))))
    | _, _ => Ok (funcRef, ctx)
    end
  else if String.eqb name "logical" then
    match UnwrapSome Logical (arg args 0) with
    | Some expr => Ok (Fold env ctx (ConvertToType (mkType Logical KIND) expr))
    | None => Ok (funcRef, ctx)
    end
  else if String.eqb name "out_of_range" then
    FoldOutOfRange ctx KIND rank proc args
  else if String.eqb name "parity" then
    Ok (FoldAllAnyParity ctx KIND rank proc args NEQV false, ctx)
  else if String.eqb name "same_type_as" then
    match TypeInquiry (SameTypeAs env) args with
    | Some result => Ok (LogicalScalar KIND result, ctx)
    | None => Ok (funcRef, ctx)
    end
  else if isOneOf name IeeeSupportNames then
    Ok (LogicalScalar KIND true, ctx)
  else Ok (funcRef, ctx)
end.

(** [OperandsAreConstants] followed by the per-category comparison of
    [FoldOperation(Relational<T>)].  The folder is never instantiated at a
    logical or derived operand type ([static_assert]). *)
Definition RelationalResult (T : DynamicType) (opr : RelationalOperator.t)
  (x y : Expr) : option bool :=
match category T with
| Integer =>
    match GetScalarInteger x, GetScalarInteger y with
    | Some a, Some b => Some (SatisfiesOrdering opr (CompareSigned (kind T) a b))
    | _, _ => None
    end
| Real =>
    match GetScalarReal x, GetScalarReal y with
    | Some a, Some b => Some (Satisfies opr (Compare lib a b))
    | _, _ => None
    end
| Complex =>
    match GetScalarComplex x, GetScalarComplex y with
    | Some a, Some b =>
        Some (Bool.eqb (RelationalOperator.eqb opr RelationalOperator.EQ)
                       (Equals lib a b))
    | _, _ => None
    end
| Character =>
    match GetScalarCharacter x, GetScalarCharacter y with
    | Some a, Some b => Some (SatisfiesOrdering opr (CharacterCompare lib a b))
    | _, _ => None
    end
| Logical | Derived => None
end.

(** [FoldOperation(context, Relational<T> &&)]. *)
Definition FoldRelational (ctx : FoldingContext) (T : DynamicType)
  (opr : RelationalOperator.t) (x y : Expr) : Expr :=
match ApplyElementwise env ctx (Relational T opr x y) [x; y] with
| Some array => array
| None =>
    match RelationalResult T opr x y with
    | Some result => LogicalScalar LogicalResult result
    | None => Relational T opr x y
    end
end.

(** [FoldOperation(context, Not<KIND> &&)]. *)
Definition FoldNot (ctx : FoldingContext) (KIND : Z) (x : Expr) : Expr :=
match ApplyElementwise env ctx (Not KIND x) [x] with
| Some array => array
| None =>
    match GetScalarLogical x with
    | Some v => LogicalScalar KIND (negb (IsTrue v))
    | None => Not KIND x
    end
end.

(** [FoldOperation(context, LogicalOperation<KIND> &&)]: [Not] inside the
    switch is [DIE("not a binary operator")]. *)
Definition FoldLogicalOperation (ctx : FoldingContext) (KIND : Z)
  (logicalOperator : LogicalOperator.t) (x y : Expr) : Outcome Expr :=
match ApplyElementwise env ctx (LogicalOperation KIND logicalOperator x y)
        [x; y] with
| Some array => Ok array
| None =>
    match GetScalarLogical x, GetScalarLogical y with
    | Some a, Some b =>
        let xt := IsTrue a in
        let yt := IsTrue b in
        match logicalOperator with
        | LogicalOperator.And => Ok (LogicalScalar KIND (xt && yt))
        | LogicalOperator.Or => Ok (LogicalScalar KIND (xt || yt))
        | LogicalOperator.Eqv => Ok (LogicalScalar KIND (Bool.eqb xt yt))
        | LogicalOperator.Neqv => Ok (LogicalScalar KIND (negb (Bool.eqb xt yt)))
        | LogicalOperator.Not => Abort "not a binary operator"
        end
    | _, _ => Ok (LogicalOperation KIND logicalOperator x y)
    end
end.

End FoldLogical.

Arguments ZeroExtend {R} _.
Arguments constArg {R} _.
Arguments cRoundOf {R} _.
Arguments RoundIsUsable {R} _.
Arguments roundingModeOf {R} _.
Arguments OutOfRangeResult {R} _ _ _.
Arguments FoldOutOfRange {R} _ _ _ _ _ _ _.
Arguments FoldAllAnyParity {R} _ _ _ _ _ _ _.
Arguments FoldIntrinsicFunction {R} _ _ _ _ _ _ _.
Arguments RelationalResult {R} _ _ _ _ _.
Arguments FoldRelational {R} _ _ _ _ _ _ _.
Arguments FoldNot {R} _ _ _ _.
Arguments FoldLogicalOperation {R} _ _ _ _ _ _.
Arguments ConstantOperand {R} _.
Arguments TypeInquiry {R} _ _ _.
Arguments RealToInteger {R} _ _ _ _.
Arguments RealToReal {R} _ _ _.
Arguments IntegerToReal {R} _ _ _.
Arguments IntegerToInteger {R} _ _.
Arguments btestScalar {R} _ _ _ _ _ _.

(** ** The rule table of the specification *)

(** The names of the rows of the dispatcher table as the specification
    lists them: ALL, ANY, PARITY, ASSOCIATED, the four unsigned bit-pattern
    compares, the bit test, the type-extension test, the three IEEE
    classifications, the contiguity test, the two I/O status tests, the four
    character compares, the logical kind conversion, the range test, the
    same-type test and the ten IEEE capability queries. *)
Definition SpecRuleNames : list string :=
[ "all"; "any"; "parity"; "associated"; "bge"; "bgt"; "ble"; "blt"; "btest";
  "extends_type_of"; "isnan"; "__builtin_ieee_is_nan";
  "__builtin_ieee_is_negative"; "__builtin_ieee_is_normal"; "is_contiguous";
  "is_iostat_end"; "is_iostat_eor"; "lge"; "lgt"; "lle"; "llt"; "logical";
  "out_of_range"; "same_type_as" ] ++ IeeeSupportNames.

(** The four unsigned bit-pattern compares. *)
Definition BitCompareNames : list string := ["bge"; "bgt"; "ble"; "blt"].

(** The unsigned comparison as the specification words it: the narrower
    pattern is zero-extended to the wider of the two widths, then the
    patterns are compared as unsigned integers. *)
Definition ZeroExtendTo (width raw : Z) : Z := raw mod 2 ^ width.

Definition SpecBitCompare (name : string) (kx x ky y : Z) : bool :=
let width := Z.max (bits kx) (bits ky) in
let a := ZeroExtendTo width x in
let b := ZeroExtendTo width y in
if String.eqb name "bge" then b <=? a
else if String.eqb name "bgt" then b <? a
else if String.eqb name "ble" then a <=? b
else a <? b.

(** The names the dispatcher has a branch for: the rows of the table and
    DOT_PRODUCT. *)
Definition DispatchedNames : list string := SpecRuleNames ++ ["dot_product"].

(** The number of leading argument slots the branch of [name] indexes
    without looking at the size of the vector. *)
Definition SlotsIndexed (name : string) : nat :=
if isOneOf name ["all"; "any"; "parity"; "associated"; "bge"; "bgt"; "ble";
                 "blt"; "btest"; "extends_type_of"; "same_type_as"; "lge";
                 "lgt"; "lle"; "llt"; "out_of_range"] then 2
else if isOneOf name ["isnan"; "__builtin_ieee_is_nan";
                      "__builtin_ieee_is_negative";
                      "__builtin_ieee_is_normal"; "is_contiguous";
                      "is_iostat_end"; "is_iostat_eor"; "logical"] then 1
else 0.

Section RulePreconditions.

Variable R : Type.
Variable env : Collaborators R.

Definition isSome {A} (o : option A) : bool :=
match o with Some _ => true | None => false end.

(** An operand that is a bit pattern known at compile time: a BOZ literal
    or an integer constant. *)
Definition IsBitPattern (a : option (ActualArgument R)) : bool :=
match UnwrapExpr a with
| Some (BOZLiteralConstant _) | Some (IntegerConstant _ _) => true
| _ => false
end.

Definition IsNullLiteral (a : option (ActualArgument R)) : bool :=
match UnwrapExpr a with
| Some e => IsNullPointer e
| None => false
end.

Definition IsConstantOf (cat : TypeCategory) (a : option (ActualArgument R))
  : bool :=
match UnwrapExpr a with
| Some e => IsActuallyConstant e && HasCategory cat e
| None => false
end.

Definition IsTyped (cat : TypeCategory) (a : option (ActualArgument R))
  : bool :=
match UnwrapExpr a with
| Some e => HasCategory cat e
| None => false
end.

(** The precondition of the range test: the source folds to a constant,
    source and mold are one of the four (category, category) cases, the
    rounding argument of the real-to-integer case is absent or constant,
    and the extents of the folded source are known. *)
Definition OutOfRangePrecondition (ctx : FoldingContext)
  (args : ActualArguments R) : bool :=
match UnwrapExpr (arg args 0) with
| None => false
| Some cx =>
    let (folded, ctx1) := Fold env (DiscardMessages ctx) cx in
    IsActuallyConstant folded &&
    (IsTyped Real (arg args 1) &&
       (HasCategory Integer folded || HasCategory Real folded)
     || IsTyped Integer (arg args 1) &&
          (HasCategory Integer folded
           || HasCategory Real folded && RoundIsUsable args)) &&
    isSome (GetConstantExtents env ctx1 folded)
end.

(** The "fold precondition" column of the dispatcher table, row by row. *)
Definition RulePrecondition (ctx : FoldingContext) (name : string)
  (args : ActualArguments R) : bool :=
if isOneOf name ["all"; "any"; "parity"] then
  isSome (ProcessReductionArgs args 0 1)
else if String.eqb name "associated" then
  IsNullLiteral (arg args 0) &&
  match arg args 1 with
  | Some a1 => IsNullLiteral (Some a1)
  | None => true
  end
else if isOneOf name BitCompareNames then
  IsBitPattern (arg args 0) && IsBitPattern (arg args 1)
else if String.eqb name "btest" then
  IsConstantOf Integer (arg args 0) && IsConstantOf Integer (arg args 1)
else if String.eqb name "extends_type_of" then
  isSome (TypeInquiry env (ExtendsTypeOf env) args)
else if isOneOf name ["isnan"; "__builtin_ieee_is_nan";
                      "__builtin_ieee_is_negative";
                      "__builtin_ieee_is_normal"] then
  isSome (RealArgument DefaultReal (arg args 0))
else if String.eqb name "is_contiguous" then
  match arg args 0 with
  | Some (ArgExpr e) => isSome (IsContiguous env e ctx)
  | Some (ArgAssumedType dummy) => isSome (IsContiguousDummy env dummy ctx)
  | None => false
  end
else if isOneOf name ["is_iostat_end"; "is_iostat_eor"] then
  IsConstantOf Integer (arg args 0)
else if isOneOf name ["lge"; "lgt"; "lle"; "llt"] then
  IsTyped Character (arg args 0) && IsTyped Character (arg args 1)
else if String.eqb name "logical" then
  IsTyped Logical (arg args 0)
else if String.eqb name "out_of_range" then
  OutOfRangePrecondition ctx args
else if String.eqb name "same_type_as" then
  isSome (TypeInquiry env (SameTypeAs env) args)
else isOneOf name IeeeSupportNames.

(** The two needs of the contiguity and range tests: an argument vector
    that is not empty, and a constant ROUND= argument that is scalar.  The
    precondition of a whole call is [ResolvedCall] below. *)
Definition WellFormedArguments (args : ActualArguments R) : bool :=
(1 <=? List.length args)%nat &&
match cRoundOf args with
| Some r => negb (IsActuallyConstant r) || isSome (GetScalarLogical r)
| None => true
end.

(** The call as the dispatcher returns it when it does not fold: the node
    itself; the range test has folded the source argument in place. *)
Definition Unevaluated (ctx : FoldingContext) (KIND : Z) (rank : nat)
  (name : string) (args : ActualArguments R) : Expr R :=
FunctionRef KIND rank (SpecificIntrinsic name)
  (if String.eqb name "out_of_range" then
     match UnwrapExpr (arg args 0) with
     | Some cx => set_arg 0 (fst (Fold env (DiscardMessages ctx) cx)) args
     | None => args
     end
   else args).

(** A constant ROUND= argument is scalar. *)
Definition RoundIsScalar (args : ActualArguments R) : bool :=
match cRoundOf args with
| Some r => negb (IsActuallyConstant r) || isSome (GetScalarLogical r)
| None => true
end.

(** The calls the dispatcher can index: the vector has every slot the
    branch of [name] reads with an unchecked [args[i]] (two for the
    reductions, ASSOCIATED, the bit and character compares, BTEST, the type
    inquiries and the range test; one for the classifications, the
    contiguity and status tests and LOGICAL), the first argument of
    ASSOCIATED, which the branch dereferences unchecked, is there, and a
    constant ROUND= of the range test is scalar. *)
Definition ResolvedCall (name : string) (args : ActualArguments R) : bool :=
(SlotsIndexed name <=? List.length args)%nat &&
(negb (String.eqb name "associated") || isSome (arg args 0)) &&
(negb (String.eqb name "out_of_range") || RoundIsScalar args).

(** A scalar operand the folding driver has nothing left to do on: a
    scalar constant or a scalar designator. *)
Definition ScalarLeaf (e : Expr R) : bool :=
match e with
| Opaque _ O _ => true
| IntegerConstant _ c => isSome (GetScalarValue c)
| RealConstant _ c => isSome (GetScalarValue c)
| ComplexConstant _ c => isSome (GetScalarValue c)
| CharacterConstant _ c => isSome (GetScalarValue c)
| LogicalConstant _ c => isSome (GetScalarValue c)
| _ => false
end.

End RulePreconditions.

Arguments isSome {A} _.
Arguments IsBitPattern {R} _.
Arguments IsNullLiteral {R} _.
Arguments IsConstantOf {R} _ _.
Arguments IsTyped {R} _ _.
Arguments OutOfRangePrecondition {R} _ _ _.
Arguments RulePrecondition {R} _ _ _ _.
Arguments WellFormedArguments {R} _.
Arguments RoundIsScalar {R} _.
Arguments ResolvedCall {R} _ _.
Arguments ScalarLeaf {R} _.
Arguments Unevaluated {R} _ _ _ _ _ _.

(** The bit positions BTEST complains about and what it says of them. *)
Definition PositionOutOfRange (IT posVal : Z) : bool :=
(posVal <? 0) || (posVal >=? bits IT).

Definition PositionDiagnostic (posVal : Z) : Message :=
mkMessage "POS=%jd out of range for BTEST" posVal.

(** ** A sample instance of the collaborators

    Small stand-ins for the numeric library and the front end, used to run
    the folder on concrete calls. *)

Module Sample.

(** Reals that are NaN, an infinity, or a multiple of one half. *)
Inductive real := NaN | Inf (negative : bool) | Halves (twice : Z).

Definition isFinite (x : real) : bool :=
match x with Halves _ => true | _ => false end.

Definition isNaN (x : real) : bool :=
match x with NaN => true | _ => false end.

Definition isNegative (x : real) : bool :=
match x with
| NaN => false
| Inf n => n
| Halves t => t <? 0
end.

Definition isNormal (x : real) : bool :=
match x with Halves t => negb (t =? 0) | _ => false end.

Definition compare (x y : real) : Relation.t :=
match x, y with
| NaN, _ | _, NaN => Relation.Unordered
| Inf a, Inf b =>
    if Bool.eqb a b then Relation.Equal
    else if a then Relation.Less else Relation.Greater
| Inf a, Halves _ => if a then Relation.Less else Relation.Greater
| Halves _, Inf b => if b then Relation.Greater else Relation.Less
| Halves s, Halves t =>
    match s ?= t with
    | Lt => Relation.Less
    | Eq => Relation.Equal
    | Gt => Relation.Greater
    end
end.

Definition equals (x y : real * real) : bool :=
match compare (fst x) (fst y), compare (snd x) (snd y) with
| Relation.Equal, Relation.Equal => true
| _, _ => false
end.

Fixpoint characterCompare (x y : list Z) : Ordering.t :=
match x, y with
| [], [] => Ordering.Equal
| [], _ :: _ => Ordering.Less
| _ :: _, [] => Ordering.Greater
| a :: x', b :: y' =>
    match a ?= b with
    | Lt => Ordering.Less
    | Gt => Ordering.Greater
    | Eq => characterCompare x' y'
    end
end.

(** The largest finite value of the sample real of kind [k]. *)
Definition huge (k : Z) : Z := 2 ^ bits k.

Definition overflowFlag (b : bool) : RealFlags :=
if b then [RealFlag.Overflow] else [].

Definition fromInteger (mold kx raw : Z) : ValueWithRealFlags real :=
let v := SignedValue kx raw in
mkVWRF (Halves (2 * v)) (overflowFlag (huge mold <? Z.abs v)).

Definition convertReal (mold kx : Z) (x : real) : ValueWithRealFlags real :=
match x with
| Halves t => mkVWRF x (overflowFlag (2 * huge mold <? Z.abs t))
| _ => mkVWRF x []
end.

Definition rounded (mode : RoundingMode.t) (t : Z) : Z :=
match mode with
| RoundingMode.ToZero => Z.quot t 2
| RoundingMode.Down => t / 2
| RoundingMode.Up => (t + 1) / 2
| RoundingMode.TiesAwayFromZero =>
    if t <? 0 then - ((- t + 1) / 2) else (t + 1) / 2
| RoundingMode.TiesToEven =>
    if Z.even t then t / 2
    else if Z.even ((t + 1) / 2) then (t + 1) / 2 else t / 2
end.

Definition toInteger (mold kx : Z) (mode : RoundingMode.t) (x : real)
  : ValueWithRealFlags Z :=
match x with
| NaN => mkVWRF 0 [RealFlag.InvalidArgument]
| Inf _ => mkVWRF 0 [RealFlag.Overflow]
| Halves t =>
    let v := rounded mode t in
    mkVWRF (v mod 2 ^ bits mold)
      (overflowFlag
         (negb ((- 2 ^ (bits mold - 1) <=? v) && (v <? 2 ^ (bits mold - 1)))))
end.

Definition btest (k x pos : Z) : bool :=
if (pos <? 0) || (pos >=? bits k) then false else Z.testbit x pos.

Definition library : ScalarLibrary real :=
mkLibrary real btest isFinite isNaN isNegative isNormal compare equals
  characterCompare fromInteger convertReal toInteger.

(** Modelled from the spec: [FoldDotProduct] (fold-reduction.h is not among
    the sources).  The dispatcher table has no row for DOT_PRODUCT and says
    of every name it does not list "returned unevaluated": the sample
    folder returns its call. *)
Definition foldDotProduct (ctx : FoldingContext) (call : Expr real)
  : Outcome (Expr real * FoldingContext) :=
Ok (call, ctx).

(** The extents of a constant are its shape. *)
Definition constantExtents (ctx : FoldingContext) (e : Expr real)
  : option (list Z) :=
match e with
| IntegerConstant _ c => Some (shape c)
| RealConstant _ c => Some (shape c)
| ComplexConstant _ c => Some (shape c)
| CharacterConstant _ c => Some (shape c)
| LogicalConstant _ c => Some (shape c)
| _ => None
end.

(** A driver that has nothing left to fold. *)
Definition collaborators : Collaborators real :=
mkCollaborators real
  (fun ctx e => (e, ctx))
  (fun _ _ => None) (fun _ _ => None) None
  (fun _ _ => None) (fun _ _ => None)
  constantExtents foldDotProduct (fun _ _ => None) (-1) (-2).

(** The same front end, unable to tell the extents of anything. *)
Definition shapeless : Collaborators real :=
mkCollaborators real
  (fun ctx e => (e, ctx))
  (fun _ _ => None) (fun _ _ => None) None
  (fun _ _ => None) (fun _ _ => None)
  (fun _ _ => None) foldDotProduct (fun _ _ => None) (-1) (-2).

Definition context : FoldingContext := mkContext (Some []).

Definition call (name : string) (args : list (Expr real)) : Expr real :=
FunctionRef 4 0 (SpecificIntrinsic name) (map (fun e => Some (ArgExpr e)) args).

Definition fold (name : string) (args : list (Expr real))
  : Outcome (Expr real * FoldingContext) :=
FoldIntrinsicFunction library collaborators context 4 0
  (SpecificIntrinsic name) (map (fun e => Some (ArgExpr e)) args).

Definition int (k v : Z) : Expr real :=
IntegerConstant k (ScalarConstant (v mod 2 ^ bits k)).

Definition rl (k : Z) (x : real) : Expr real :=
RealConstant k (ScalarConstant x).

Definition lg (b : bool) : Expr real := LogicalConstant 4 (ScalarConstant b).

Definition vector (bs : list bool) : Expr real :=
LogicalConstant 4 (mkConstant bs [Z.of_nat (List.length bs)]).

End Sample.

(** A driver that sends a comparison to the relational folder and has
    nothing else left to fold. *)
Definition RelationalDriver : Collaborators Sample.real :=
mkCollaborators Sample.real
  (fun ctx e =>
     match e with
     | Relational T opr x y =>
         (FoldRelational Sample.library Sample.collaborators ctx T opr x y, ctx)
     | _ => (e, ctx)
     end)
  (fun _ _ => None) (fun _ _ => None) None
  (fun _ _ => None) (fun _ _ => None)
  Sample.constantExtents Sample.foldDotProduct (fun _ _ => None) (-1) (-2).

(** * Properties *)

(** ** Basic facts about the framework *)

Lemma Restore_same (ctx ctx' : FoldingContext) : Restore ctx ctx' = ctx.
Proof. destruct ctx; reflexivity. Qed.

Lemma MapScalar_pure {A} (g : A -> bool) (xs : list A) (ctx : FoldingContext) :
  MapScalar (fun x c => (g x, c)) xs ctx = (map g xs, ctx).
Proof.
  induction xs as [|x xs IH]; simpl; [reflexivity|].
  rewrite IH; reflexivity.
Qed.

Lemma GetScalarValue_Scalar {A} (a : A) : GetScalarValue (ScalarConstant a) = Some a.
Proof. reflexivity. Qed.

Lemma GetScalarLogical_constant {R} (x : Expr R) (a : bool) :
  GetScalarLogical x = Some a -> IsActuallyConstant x = true.
Proof. destruct x; simpl; intros H; try discriminate; reflexivity. Qed.

Lemma GetScalarReal_constant {R} (x : Expr R) (a : R) :
  GetScalarReal x = Some a -> IsActuallyConstant x = true.
Proof. destruct x; simpl; intros H; try discriminate; reflexivity. Qed.

Lemma ApplyElementwise_constants {R} (env : Collaborators R)
  (ctx : FoldingContext) (operation : Expr R) (operands : list (Expr R)) :
  Forall (fun x => IsActuallyConstant x = true) operands ->
  ApplyElementwise env ctx operation operands = None.
Proof.
  intros H; unfold ApplyElementwise.
  replace (forallb _ operands) with true; [reflexivity|].
  symmetry; apply forallb_forall; intros x Hx.
  rewrite Forall_forall in H; rewrite (H x Hx); apply orb_true_r.
Qed.

Section OperationProperties.

Variable R : Type.
Variable lib : ScalarLibrary R.
Variable env : Collaborators R.

(** C8: with two scalar logical constants the binary evaluator yields the
    truth table of And, Or, Eqv and Neqv; the unary Not reaching it is the
    abort ["not a binary operator"]; and for an operator other than Not no
    operands whatever lead to an abort. *)
Theorem FoldLogicalOperation_truth_table
  (ctx : FoldingContext) (KIND : Z) (x y : Expr R) (a b : bool) :
  GetScalarLogical x = Some a ->
  GetScalarLogical y = Some b ->
  FoldLogicalOperation env ctx KIND LogicalOperator.And x y
    = Ok (LogicalScalar KIND (a && b)) /\
  FoldLogicalOperation env ctx KIND LogicalOperator.Or x y
    = Ok (LogicalScalar KIND (a || b)) /\
  FoldLogicalOperation env ctx KIND LogicalOperator.Eqv x y
    = Ok (LogicalScalar KIND (Bool.eqb a b)) /\
  FoldLogicalOperation env ctx KIND LogicalOperator.Neqv x y
    = Ok (LogicalScalar KIND (negb (Bool.eqb a b))) /\
  FoldLogicalOperation env ctx KIND LogicalOperator.Not x y
    = Abort "not a binary operator" /\
  (forall (op : LogicalOperator.t) (x' y' : Expr R) (why : string),
      op <> LogicalOperator.Not ->
      FoldLogicalOperation env ctx KIND op x' y' <> Abort why).
Proof.
  intros Hx Hy.
  assert (Hnone : forall op,
             ApplyElementwise env ctx (LogicalOperation KIND op x y) [x; y]
             = None).
  { intros op; apply ApplyElementwise_constants.
    repeat constructor; eauto using GetScalarLogical_constant. }
  unfold FoldLogicalOperation.
  rewrite !Hnone, Hx, Hy; unfold IsTrue.
  repeat split.
  intros op x' y' why Hop.
  destruct (ApplyElementwise env ctx _ [x'; y']); [discriminate|].
  destruct (GetScalarLogical x'); [|discriminate].
  destruct (GetScalarLogical y'); [|discriminate].
  destruct op; try discriminate; congruence.
Qed.

(** C3: a comparison of two scalar real constants of which at least one is
    a NaN folds to false for EQ, LT, LE, GT, GE and to true for NE.  The
    real library's [Compare] reports every comparison with a NaN operand as
    unordered. *)
Theorem FoldRelational_real_NaN
  (ctx : FoldingContext) (k : Z) (opr : RelationalOperator.t)
  (x y : Expr R) (a b : R) :
  (forall u v : R,
      IsNotANumber lib u || IsNotANumber lib v = true ->
      Compare lib u v = Relation.Unordered) ->
  GetScalarReal x = Some a ->
  GetScalarReal y = Some b ->
  IsNotANumber lib a || IsNotANumber lib b = true ->
  FoldRelational lib env ctx (mkType Real k) opr x y
  = LogicalScalar LogicalResult
      match opr with
      | RelationalOperator.EQ => false
      | RelationalOperator.NE => true
      | RelationalOperator.LT | RelationalOperator.LE
      | RelationalOperator.GT | RelationalOperator.GE => false
      end.
Proof.
  intros Hnan Hx Hy Hab.
  unfold FoldRelational.
  rewrite ApplyElementwise_constants
    by (repeat constructor; eauto using GetScalarReal_constant).
  unfold RelationalResult; simpl category.
  rewrite Hx, Hy, (Hnan a b Hab).
  destruct opr; reflexivity.
Qed.

End OperationProperties.

(** ** The reduction engine *)

Lemma product_zero (s : list Z) : In 0 s -> product s = 0.
Proof.
  induction s as [|e s IH]; simpl; [tauto|].
  intros [->|H]; [reflexivity|].
  rewrite (IH H); lia.
Qed.

Lemma fold_left_agree {A B} (f g : A -> B -> A) (l : list B) (a : A) :
  (forall acc x, In x l -> f acc x = g acc x) ->
  fold_left f l a = fold_left g l a.
Proof.
  revert a; induction l as [|x l IH]; simpl; intros a H; [reflexivity|].
  rewrite H by (left; reflexivity).
  apply IH; intros; apply H; right; assumption.
Qed.

(** Walking the positions of a list folds the list itself. *)
Lemma fold_positions {A} (op : A -> bool -> A) (pre suf : list bool) (acc : A) :
  fold_left
    (fun acc j =>
       match nth_error (pre ++ suf) (Z.to_nat j) with
       | Some v => op acc v
       | None => acc
       end)
    (map Z.of_nat (seq (List.length pre) (List.length suf))) acc
  = fold_left op suf acc.
Proof.
  revert pre acc; induction suf as [|v suf IH]; intros pre acc; simpl;
    [reflexivity|].
  rewrite Nat2Z.id, nth_error_app2 by lia.
  rewrite Nat.sub_diag; simpl.
  specialize (IH (pre ++ [v]) (op acc v)).
  rewrite <- app_assoc, length_app in IH; simpl in IH.
  rewrite Nat.add_1_r in IH; exact IH.
Qed.

Lemma DoReduction_rank1 (vs : list bool) (n : Z) (identity : bool)
  (operation : bool -> bool -> bool) :
  Z.of_nat (List.length vs) = n ->
  DoReduction (mkConstant vs [n]) (Some 1) identity operation
  = ScalarConstant (fold_left operation vs identity).
Proof.
  intros Hn; unfold DoReduction, ScalarConstant.
  cbn [shape values].
  change (Z.to_nat (1 - 1)) with O.
  cbn [firstn skipn nth product fold_right app].
  change (indices (1 * 1)) with [0]; cbn [map].
  f_equal; f_equal.
  rewrite <- (fold_positions operation [] vs identity).
  cbn [app List.length].
  unfold indices; rewrite <- Hn, Nat2Z.id.
  apply fold_left_agree; intros acc j _.
  replace (0 mod 1 + 1 * (j + Z.of_nat (List.length vs) * (0 / 1))) with j
    by (rewrite Zmod_1_r, Zdiv_1_r; lia).
  reflexivity.
Qed.

Lemma fold_left_keep {A B} (l : list B) (a : A) :
  fold_left (fun acc _ => acc) l a = a.
Proof. induction l as [|x l IH]; simpl; [reflexivity|exact IH]. Qed.

(** Reducing a constant without elements yields identities only, with or
    without an axis. *)
Lemma DoReduction_empty (array : Constant bool) (dim : option Z)
  (identity : bool) (operation : bool -> bool -> bool) :
  values array = [] ->
  Forall (fun b => b = identity)
         (values (DoReduction array dim identity operation)).
Proof.
  intros Hnil; unfold DoReduction; rewrite !Hnil.
  destruct dim as [d|]; cbn [values].
  - apply Forall_forall; intros b Hb.
    apply in_map_iff in Hb as (r & <- & _).
    rewrite <- (fold_left_keep
                  (indices (nth (Z.to_nat (d - 1)) (shape array) 0)) identity)
      at 2.
    apply fold_left_agree; intros acc j _.
    destruct (Z.to_nat _); reflexivity.
  - repeat constructor.
Qed.

Lemma ProcessReductionArgs_array {R} (args : ActualArguments R) (k : Z)
  (array reduced : Constant bool) (dim : option Z) :
  arg args 0 = Some (ArgExpr (LogicalConstant k array)) ->
  ProcessReductionArgs args 0 1 = Some (reduced, dim) ->
  reduced = array.
Proof.
  unfold ProcessReductionArgs; intros ->; cbn [UnwrapExpr].
  destruct (1 <=? List.length (shape array))%nat; [|discriminate].
  destruct (arg args 1) as [[e|?]|]; try discriminate.
  - destruct e; try discriminate.
    destruct (GetScalarValue c); [|discriminate].
    destruct (_ && _); [|discriminate].
    intros E; inversion E; reflexivity.
  - intros E; inversion E; reflexivity.
Qed.

Section ReductionProperties.

Variable R : Type.
Variable lib : ScalarLibrary R.
Variable env : Collaborators R.

(** An empty array that ALL, ANY or PARITY folds, along an axis or not,
    gives nothing but the identity of [operation]. *)
Lemma FoldAllAnyParity_empty
  (ctx : FoldingContext) (KIND : Z) (rank : nat) (proc : ProcedureDesignator)
  (args : ActualArguments R) (k k' : Z) (array c : Constant bool)
  (operation : bool -> bool -> bool) (identity : bool) :
  arg args 0 = Some (ArgExpr (LogicalConstant k array)) ->
  values array = [] ->
  FoldAllAnyParity ctx KIND rank proc args operation identity
  = LogicalConstant k' c ->
  Forall (fun b => b = identity) (values c).
Proof.
  intros H0 Hnil; unfold FoldAllAnyParity.
  destruct (ProcessReductionArgs args 0 1) as [[reduced dim]|] eqn:Hred;
    [|discriminate].
  rewrite (ProcessReductionArgs_array args k array reduced dim H0 Hred).
  intros E; inversion E; subst.
  apply DoReduction_empty; assumption.
Qed.

(** C4: ALL, ANY and PARITY of a constant logical array, with no axis (or
    with the only axis of a rank-1 array), fold to the AND, OR and NEQV
    combination of all the elements with the identity true, false and
    false; an empty array (some extent is zero) folds to exactly the
    identity, and along an axis to nothing but identities. *)
Theorem FoldAllAnyParity_whole_array
  (ctx : FoldingContext) (KIND : Z) (rank : nat) (args : ActualArguments R)
  (k : Z) (array : Constant bool) (kd v : Z) (d : Constant Z) :
  arg args 0 = Some (ArgExpr (LogicalConstant k array)) ->
  (1 <= List.length (shape array))%nat ->
  Z.of_nat (List.length (values array)) = product (shape array) ->
  let fold name :=
    FoldIntrinsicFunction lib env ctx KIND rank (SpecificIntrinsic name) args in
  (arg args 1 = None \/
   (arg args 1 = Some (ArgExpr (IntegerConstant kd d)) /\
    GetScalarValue d = Some v /\ ToInt64 kd v = 1 /\
    List.length (shape array) = 1%nat) ->
   (fold "all"
    = Ok (LogicalScalar KIND (fold_left andb (values array) true), ctx) /\
    fold "any"
    = Ok (LogicalScalar KIND (fold_left orb (values array) false), ctx) /\
    fold "parity"
    = Ok (LogicalScalar KIND (fold_left xorb (values array) false), ctx)) /\
   (In 0 (shape array) ->
    fold "all" = Ok (LogicalScalar KIND true, ctx) /\
    fold "any" = Ok (LogicalScalar KIND false, ctx) /\
    fold "parity" = Ok (LogicalScalar KIND false, ctx))) /\
  (In 0 (shape array) ->
   forall (k' : Z) (c : Constant bool) (ctx' : FoldingContext),
     (fold "all" = Ok (LogicalConstant k' c, ctx') ->
      Forall (fun b => b = true) (values c)) /\
     (fold "any" = Ok (LogicalConstant k' c, ctx') ->
      Forall (fun b => b = false) (values c)) /\
     (fold "parity" = Ok (LogicalConstant k' c, ctx') ->
      Forall (fun b => b = false) (values c))).
Proof.
  intros H0 Hrank Hsize fold.
  assert (Hnil : In 0 (shape array) -> values array = []).
  { intros Hempty; apply product_zero in Hempty; rewrite Hempty in Hsize.
    destruct (values array); [reflexivity|discriminate]. }
  split.
  - intros Hdim.
    assert (Hred : forall name op identity,
               FoldAllAnyParity ctx KIND rank (SpecificIntrinsic name) args
                 op identity
               = LogicalScalar KIND (fold_left op (values array) identity)).
    { intros name op identity.
      unfold FoldAllAnyParity, ProcessReductionArgs.
      rewrite H0; simpl UnwrapExpr; cbv iota.
      replace (1 <=? List.length (shape array))%nat with true
        by (symmetry; apply Nat.leb_le; assumption).
      destruct Hdim as [Hd | (Hd & Hv & Hone & Hr1)]; rewrite Hd.
      - reflexivity.
      - rewrite Hv; cbv zeta; rewrite Hone, Hr1.
        change ((1 <=? 1) && (1 <=? Z.of_nat 1)) with true; cbv iota.
        destruct array as [vs s]; cbn [shape values] in *.
        destruct s as [|n [|? ?]]; try discriminate.
        cbn [product fold_right] in Hsize.
        rewrite DoReduction_rank1 by lia.
        reflexivity. }
    assert (Hfold :
              fold "all"
              = Ok (LogicalScalar KIND (fold_left andb (values array) true),
                    ctx) /\
              fold "any"
              = Ok (LogicalScalar KIND (fold_left orb (values array) false),
                    ctx) /\
              fold "parity"
              = Ok (LogicalScalar KIND (fold_left xorb (values array) false),
                    ctx)).
    { unfold fold, FoldIntrinsicFunction; simpl.
      rewrite !Hred; repeat split. }
    split; [exact Hfold|].
    intros Hempty; rewrite (Hnil Hempty) in Hfold; exact Hfold.
  - intros Hempty k' c ctx'; specialize (Hnil Hempty).
    unfold fold, FoldIntrinsicFunction; simpl.
    repeat split; intros E; inversion E as [[E' Ectx]];
      exact (FoldAllAnyParity_empty _ _ _ _ _ _ _ _ _ _ _ H0 Hnil E').
Qed.

End ReductionProperties.

(** ** The range test OUT_OF_RANGE *)

Lemma HasCategory_unique {R} (e : Expr R) (c c' : TypeCategory) :
  HasCategory c e = true -> c <> c' -> HasCategory c' e = false.
Proof.
  unfold HasCategory; destruct (GetType e) as [[cat k]|]; simpl;
    [|discriminate].
  destruct cat, c, c'; simpl; congruence.
Qed.

Lemma GetScalarLogical_typed {R} (r : Expr R) (b : bool) :
  GetScalarLogical r = Some b -> HasCategory Logical r = true.
Proof. destruct r; simpl; intros H; try discriminate; reflexivity. Qed.

Section RangeProperties.

Variable R : Type.
Variable lib : ScalarLibrary R.
Variable env : Collaborators R.

Local Abbreviation out_of_range := (SpecificIntrinsic "out_of_range").

Lemma FoldIntrinsicFunction_out_of_range
  (ctx : FoldingContext) (KIND : Z) (rank : nat) (args : ActualArguments R) :
  FoldIntrinsicFunction lib env ctx KIND rank out_of_range args
  = FoldOutOfRange lib env ctx KIND rank out_of_range args.
Proof. reflexivity. Qed.

(** The branch once the source has been folded to a constant. *)
Lemma FoldOutOfRange_constant
  (ctx ctx1 : FoldingContext) (KIND : Z) (rank : nat)
  (cx folded : Expr R) (a1 : option (ActualArgument R))
  (rest : ActualArguments R) :
  Fold env (DiscardMessages ctx) cx = (folded, ctx1) ->
  IsActuallyConstant folded = true ->
  let args1 := Some (ArgExpr folded) :: a1 :: rest in
  FoldIntrinsicFunction lib env ctx KIND rank out_of_range
    (Some (ArgExpr cx) :: a1 :: rest)
  = match OutOfRangeResult lib folded args1 with
    | Ok (Some result) =>
        match GetConstantExtents env ctx1 folded with
        | Some extents =>
            Ok (LogicalConstant KIND (mkConstant result extents), ctx)
        | None => Ok (FunctionRef KIND rank out_of_range args1, ctx)
        end
    | Ok None => Ok (FunctionRef KIND rank out_of_range args1, ctx)
    | Abort why => Abort why
    end.
Proof.
  intros Hfold Hconst args1.
  rewrite FoldIntrinsicFunction_out_of_range.
  unfold FoldOutOfRange; cbn [arg nth_error UnwrapExpr].
  rewrite Hfold, Hconst; cbn [set_arg]; fold args1.
  rewrite Restore_same; reflexivity.
Qed.

(** The element vector with a real mold: the third argument is never
    looked at. *)
Lemma OutOfRangeResult_real_mold
  (folded mold : Expr R) (a0 : option (ActualArgument R))
  (rest : ActualArguments R) :
  HasCategory Real mold = true ->
  OutOfRangeResult lib folded (a0 :: Some (ArgExpr mold) :: rest)
  = if HasCategory Integer folded then emplace (IntegerToReal lib mold folded)
    else if HasCategory Real folded then emplace (RealToReal lib mold folded)
    else Ok None.
Proof.
  intros Hmold; unfold OutOfRangeResult, UnwrapSome.
  cbn [arg nth_error UnwrapExpr]; rewrite Hmold; reflexivity.
Qed.

(** The element vector with an integer mold. *)
Lemma OutOfRangeResult_integer_mold
  (folded mold : Expr R) (a0 : option (ActualArgument R))
  (rest : ActualArguments R) :
  HasCategory Integer mold = true ->
  let args := a0 :: Some (ArgExpr mold) :: rest in
  OutOfRangeResult lib folded args
  = if HasCategory Integer folded
    then emplace (IntegerToInteger mold folded)
    else if RoundIsUsable args then
      if HasCategory Real folded then
        match roundingModeOf (cRoundOf args) with
        | Ok roundingMode =>
            emplace (RealToInteger lib roundingMode mold folded)
        | Abort why => Abort why
        end
      else Ok None
    else Ok None.
Proof.
  intros Hmold args; unfold OutOfRangeResult, UnwrapSome.
  cbn [args arg nth_error UnwrapExpr].
  rewrite (HasCategory_unique mold Integer Real Hmold) by discriminate.
  rewrite Hmold; reflexivity.
Qed.

(** C1: real source, integer mold.  With the third argument absent or a
    constant false every element is converted with truncation toward zero;
    with a constant true, with round-ties-away-from-zero; with a logical
    argument that is not a constant the call is returned unevaluated.  An
    element that is not finite gives true; a finite one gives the overflow
    flag of the rounding conversion. *)
Theorem OutOfRange_real_to_integer
  (ctx ctx1 : FoldingContext) (KIND : Z) (rank : nat) (cx mold : Expr R)
  (kx : Z) (xConst : Constant R) (extents : list Z) :
  Fold env (DiscardMessages ctx) cx = (RealConstant kx xConst, ctx1) ->
  HasCategory Integer mold = true ->
  GetConstantExtents env ctx1 (RealConstant kx xConst) = Some extents ->
  let call round :=
    FoldIntrinsicFunction lib env ctx KIND rank out_of_range
      (Some (ArgExpr cx) :: Some (ArgExpr mold) :: round) in
  let converted mode :=
    Ok (LogicalConstant KIND
          (mkConstant
             (map (fun elt =>
                     if IsFinite lib elt
                     then test (flags (ToInteger lib (KindOf mold) kx mode elt))
                               RealFlag.Overflow
                     else true)
                  (values xConst))
             extents),
        ctx) in
  call [] = converted RoundingMode.ToZero /\
  (forall more, call (None :: more) = converted RoundingMode.ToZero) /\
  (forall r more,
      GetScalarLogical r = Some false ->
      call (Some (ArgExpr r) :: more) = converted RoundingMode.ToZero) /\
  (forall r more,
      GetScalarLogical r = Some true ->
      call (Some (ArgExpr r) :: more)
      = converted RoundingMode.TiesAwayFromZero) /\
  (forall r more,
      HasCategory Logical r = true ->
      IsActuallyConstant r = false ->
      call (Some (ArgExpr r) :: more)
      = Ok (FunctionRef KIND rank out_of_range
              (Some (ArgExpr (RealConstant kx xConst))
               :: Some (ArgExpr mold) :: Some (ArgExpr r) :: more),
            ctx)).
Proof.
  intros Hfold Hmold Hext call converted.
  assert (Hmap : forall mode,
             map (fun elt =>
                    negb (IsFinite lib elt) ||
                    test (flags (ToInteger lib (KindOf mold) kx mode elt))
                         RealFlag.Overflow) (values xConst)
             = map (fun elt =>
                      if IsFinite lib elt
                      then test (flags (ToInteger lib (KindOf mold) kx mode elt))
                                RealFlag.Overflow
                      else true) (values xConst)).
  { intros mode; apply map_ext; intros elt.
    destruct (IsFinite lib elt); reflexivity. }
  assert (Hstep : forall round,
             call round
             = match OutOfRangeResult lib (RealConstant kx xConst)
                       (Some (ArgExpr (RealConstant kx xConst))
                        :: Some (ArgExpr mold) :: round) with
               | Ok (Some result) =>
                   Ok (LogicalConstant KIND (mkConstant result extents), ctx)
               | Ok None =>
                   Ok (FunctionRef KIND rank out_of_range
                         (Some (ArgExpr (RealConstant kx xConst))
                          :: Some (ArgExpr mold) :: round), ctx)
               | Abort why => Abort why
               end).
  { intros round; unfold call.
    rewrite (FoldOutOfRange_constant ctx ctx1 KIND rank cx _ _ round Hfold)
      by reflexivity.
    cbv zeta; rewrite Hext; reflexivity. }
  repeat split; intros; rewrite Hstep;
    rewrite OutOfRangeResult_integer_mold by assumption;
    cbv zeta; cbn [HasCategory GetType category TypeCategory_eqb].
  - unfold converted; rewrite <- Hmap; reflexivity.
  - unfold converted; rewrite <- Hmap; reflexivity.
  - unfold RoundIsUsable, cRoundOf, UnwrapSome.
    cbn [List.length Nat.leb arg nth_error UnwrapExpr].
    rewrite (GetScalarLogical_typed r false) by assumption.
    rewrite (GetScalarLogical_constant r false) by assumption.
    unfold roundingModeOf; rewrite H.
    unfold converted; rewrite <- Hmap; reflexivity.
  - unfold RoundIsUsable, cRoundOf, UnwrapSome.
    cbn [List.length Nat.leb arg nth_error UnwrapExpr].
    rewrite (GetScalarLogical_typed r true) by assumption.
    rewrite (GetScalarLogical_constant r true) by assumption.
    unfold roundingModeOf; rewrite H.
    unfold converted; rewrite <- Hmap; reflexivity.
  - unfold RoundIsUsable, cRoundOf, UnwrapSome.
    cbn [List.length Nat.leb arg nth_error UnwrapExpr].
    rewrite H, H0; reflexivity.
Qed.

(** C2: real source, real mold.  An element is out of range exactly when
    it is finite and its conversion to the kind of the mold sets the
    overflow flag; an element that is not finite gives false. *)
Theorem OutOfRange_real_to_real
  (ctx ctx1 : FoldingContext) (KIND : Z) (rank : nat) (cx mold : Expr R)
  (rest : ActualArguments R)
  (kx : Z) (xConst : Constant R) (extents : list Z) :
  Fold env (DiscardMessages ctx) cx = (RealConstant kx xConst, ctx1) ->
  HasCategory Real mold = true ->
  GetConstantExtents env ctx1 (RealConstant kx xConst) = Some extents ->
  FoldIntrinsicFunction lib env ctx KIND rank out_of_range
    (Some (ArgExpr cx) :: Some (ArgExpr mold) :: rest)
  = Ok (LogicalConstant KIND
          (mkConstant
             (map (fun elt =>
                     if IsFinite lib elt
                     then test (flags (ConvertReal lib (KindOf mold) kx elt))
                               RealFlag.Overflow
                     else false)
                  (values xConst))
             extents),
        ctx).
Proof.
  intros Hfold Hmold Hext.
  rewrite (FoldOutOfRange_constant ctx ctx1 KIND rank cx _ _ rest Hfold)
    by reflexivity.
  cbv zeta; rewrite OutOfRangeResult_real_mold by assumption.
  cbn [HasCategory GetType category TypeCategory_eqb].
  unfold RealToReal; cbn [DerefRealConstant emplace].
  rewrite Hext; reflexivity.
Qed.

(** C9: with a real mold the third argument is ignored: the fold is the
    same for every third argument, absent, constant or not constant, and so
    it is for an integer source with an integer mold; only a real source
    with an integer mold is withheld by a logical third argument that is not
    a constant. *)
Theorem OutOfRange_round_ignored
  (ctx ctx1 : FoldingContext) (KIND : Z) (rank : nat) (cx folded : Expr R)
  (extents : list Z) :
  Fold env (DiscardMessages ctx) cx = (folded, ctx1) ->
  GetConstantExtents env ctx1 folded = Some extents ->
  let call mold round :=
    FoldIntrinsicFunction lib env ctx KIND rank out_of_range
      (Some (ArgExpr cx) :: Some (ArgExpr mold) :: round) in
  let constant bs := Ok (LogicalConstant KIND (mkConstant bs extents), ctx) in
  (forall mold kx xConst round,
      HasCategory Real mold = true ->
      folded = RealConstant kx xConst ->
      call mold round
      = constant
          (map (fun elt =>
                  IsFinite lib elt &&
                  test (flags (ConvertReal lib (KindOf mold) kx elt))
                       RealFlag.Overflow)
               (values xConst))) /\
  (forall mold kx xConst round,
      HasCategory Real mold = true ->
      folded = IntegerConstant kx xConst ->
      call mold round
      = constant
          (map (fun elt =>
                  test (flags (FromInteger lib (KindOf mold) kx elt))
                       RealFlag.Overflow)
               (values xConst))) /\
  (forall mold kx xConst round,
      HasCategory Integer mold = true ->
      folded = IntegerConstant kx xConst ->
      call mold round
      = constant
          (map (fun elt => overflow (ConvertSigned (KindOf mold) kx elt))
               (values xConst))) /\
  (forall mold kx xConst r more,
      HasCategory Integer mold = true ->
      folded = RealConstant kx xConst ->
      HasCategory Logical r = true ->
      IsActuallyConstant r = false ->
      call mold (Some (ArgExpr r) :: more)
      = Ok (FunctionRef KIND rank out_of_range
              (Some (ArgExpr folded)
               :: Some (ArgExpr mold) :: Some (ArgExpr r) :: more),
            ctx)).
Proof.
  intros Hfold Hext call constant.
  repeat split; intros; subst folded; unfold call;
    rewrite (FoldOutOfRange_constant ctx ctx1 KIND rank cx _ _ _ Hfold)
      by reflexivity;
    cbv zeta; rewrite Hext.
  - rewrite OutOfRangeResult_real_mold by assumption; reflexivity.
  - rewrite OutOfRangeResult_real_mold by assumption; reflexivity.
  - rewrite OutOfRangeResult_integer_mold by assumption; reflexivity.
  - rewrite OutOfRangeResult_integer_mold by assumption.
    cbv zeta; cbn [HasCategory GetType category TypeCategory_eqb].
    unfold RoundIsUsable, cRoundOf, UnwrapSome.
    cbn [List.length Nat.leb arg nth_error UnwrapExpr].
    rewrite H1, H2; reflexivity.
Qed.

(** C10: once every element result has been computed, the fold emits the
    constant logical array only when the constant extents of the folded
    source are known, and the array has those extents; when they are not
    known the call is returned, with its source argument folded. *)
Theorem OutOfRange_needs_extents
  (ctx ctx1 : FoldingContext) (KIND : Z) (rank : nat) (cx folded : Expr R)
  (a1 : option (ActualArgument R)) (rest : ActualArguments R)
  (result : list bool) :
  Fold env (DiscardMessages ctx) cx = (folded, ctx1) ->
  IsActuallyConstant folded = true ->
  OutOfRangeResult lib folded (Some (ArgExpr folded) :: a1 :: rest)
  = Ok (Some result) ->
  let call :=
    FoldIntrinsicFunction lib env ctx KIND rank out_of_range
      (Some (ArgExpr cx) :: a1 :: rest) in
  (GetConstantExtents env ctx1 folded = None ->
   call = Ok (FunctionRef KIND rank out_of_range
                (Some (ArgExpr folded) :: a1 :: rest), ctx)) /\
  (forall extents,
      GetConstantExtents env ctx1 folded = Some extents ->
      call = Ok (LogicalConstant KIND (mkConstant result extents), ctx)) /\
  (forall k c ctx',
      call = Ok (LogicalConstant k c, ctx') ->
      GetConstantExtents env ctx1 folded = Some (shape c) /\
      values c = result).
Proof.
  intros Hfold Hconst Hresult call.
  assert (Hcall :
            call = match GetConstantExtents env ctx1 folded with
                   | Some extents =>
                       Ok (LogicalConstant KIND (mkConstant result extents),
                           ctx)
                   | None =>
                       Ok (FunctionRef KIND rank out_of_range
                             (Some (ArgExpr folded) :: a1 :: rest), ctx)
                   end).
  { unfold call.
    rewrite (FoldOutOfRange_constant ctx ctx1 KIND rank cx _ _ _ Hfold Hconst).
    cbv zeta; rewrite Hresult; reflexivity. }
  rewrite Hcall; split; [|split].
  - intros ->; reflexivity.
  - intros extents ->; reflexivity.
  - intros k c ctx' E.
    destruct (GetConstantExtents env ctx1 folded); inversion E; split;
      reflexivity.
Qed.

End RangeProperties.

(** ** Elemental rules: the bit-pattern compares and the bit test *)

Lemma combine_map2 {A B A' B'} (f : A -> A') (g : B -> B')
  (xs : list A) (ys : list B) :
  combine (map f xs) (map g ys)
  = map (fun p => (f (fst p), g (snd p))) (combine xs ys).
Proof.
  revert ys; induction xs as [|x xs IH]; intros [|y ys]; simpl;
    try reflexivity.
  rewrite IH; reflexivity.
Qed.

(** Converting the elements of both operands leaves the pairing alone. *)
Lemma Conform_map {A B A' B'} (f : A -> A') (g : B -> B')
  (ca : Constant A) (cb : Constant B) :
  Conform (mkConstant (map f (values ca)) (shape ca))
          (mkConstant (map g (values cb)) (shape cb))
  = match Conform ca cb with
    | Some (ps, s) => Some (map (fun p => (f (fst p), g (snd p))) ps, s)
    | None => None
    end.
Proof.
  destruct ca as [va sa], cb as [vb sb]; unfold Conform; cbn [values shape].
  destruct sa as [|ea sa], sb as [|eb sb].
  - destruct va, vb; reflexivity.
  - destruct va; [reflexivity|]; cbn [map].
    rewrite !map_map; reflexivity.
  - destruct vb; [reflexivity|]; cbn [map].
    rewrite !map_map; reflexivity.
  - destruct (shape_eqb (ea :: sa) (eb :: sb)); [|reflexivity].
    rewrite combine_map2; reflexivity.
Qed.

(** Every pair of an elemental call is made of elements of the operands. *)
Lemma Conform_elements {A B} (ca : Constant A) (cb : Constant B)
  (ps : list (A * B)) (s : list Z) :
  Conform ca cb = Some (ps, s) ->
  forall p, In p ps -> In (fst p) (values ca) /\ In (snd p) (values cb).
Proof.
  destruct ca as [va sa], cb as [vb sb]; unfold Conform; cbn [values shape].
  destruct sa as [|ea sa], sb as [|eb sb].
  - destruct va as [|a va], vb as [|b vb]; intros E; inversion E; subst.
    intros p [<-|[]]; simpl; auto.
  - destruct va as [|a va]; intros E; inversion E; subst.
    intros p Hp; apply in_map_iff in Hp as (b & <- & Hb); simpl; auto.
  - destruct vb as [|b vb]; intros E; inversion E; subst.
    intros p Hp; apply in_map_iff in Hp as (a & <- & Ha); simpl; auto.
  - destruct (shape_eqb (ea :: sa) (eb :: sb)); intros E; inversion E; subst.
    intros [a b] Hp; simpl; split;
      [eapply in_combine_l | eapply in_combine_r]; eassumption.
Qed.

Lemma zero_extension_exact (k v : Z) :
  0 < k <= LargestInt -> 0 <= v < 2 ^ bits k ->
  value (ConvertUnsigned LargestInt v) = v.
Proof.
  unfold LargestInt, bits; intros Hk Hv; cbn [value ConvertUnsigned].
  apply Z.mod_small; split; [lia|].
  apply Z.lt_le_trans with (2 ^ (8 * k)); [lia|].
  apply Z.pow_le_mono_r; unfold bits; lia.
Qed.

Lemma ZeroExtendTo_exact (k width v : Z) :
  0 < k -> bits k <= width -> 0 <= v < 2 ^ bits k ->
  ZeroExtendTo width v = v.
Proof.
  unfold ZeroExtendTo, bits; intros Hk Hw Hv.
  apply Z.mod_small; split; [lia|].
  apply Z.lt_le_trans with (2 ^ (8 * k)); [lia|].
  apply Z.pow_le_mono_r; lia.
Qed.

Section ElementalProperties.

Variable R : Type.
Variable lib : ScalarLibrary R.
Variable env : Collaborators R.

Lemma FoldIntrinsicFunction_bit_compare
  (ctx : FoldingContext) (KIND : Z) (rank : nat) (name : string)
  (args : ActualArguments R) :
  In name BitCompareNames ->
  FoldIntrinsicFunction lib env ctx KIND rank (SpecificIntrinsic name) args
  = match constArg (arg args 0), constArg (arg args 1) with
    | Some c0, Some c1 =>
        match BitCompare name with
        | Some fptr =>
            Ok (FoldElementalIntrinsic2
                  (IntegerArgument LargestInt) (IntegerArgument LargestInt)
                  (fun i j c => (fptr i j, c))
                  ctx KIND rank (SpecificIntrinsic name)
                  (set_arg 1 c1 (set_arg 0 c0 args)))
        | None => Abort "missing case to fold intrinsic function"
        end
    | _, _ => Ok (FunctionRef KIND rank (SpecificIntrinsic name) args, ctx)
    end.
Proof. intros [<-|[<-|[<-|[<-|[]]]]]; reflexivity. Qed.

Lemma BitCompare_spec (name : string) (kx ky x y : Z) :
  In name BitCompareNames ->
  0 < kx <= LargestInt -> 0 < ky <= LargestInt ->
  0 <= x < 2 ^ bits kx -> 0 <= y < 2 ^ bits ky ->
  exists fptr,
    BitCompare name = Some fptr /\
    fptr (value (ConvertUnsigned LargestInt x))
         (value (ConvertUnsigned LargestInt y))
    = SpecBitCompare name kx x ky y.
Proof.
  intros Hname Hkx Hky Hx Hy.
  rewrite (zero_extension_exact kx x), (zero_extension_exact ky y)
    by assumption.
  unfold SpecBitCompare.
  rewrite (ZeroExtendTo_exact kx _ x), (ZeroExtendTo_exact ky _ y)
    by (try assumption; lia).
  destruct Hname as [<-|[<-|[<-|[<-|[]]]]]; eexists; split; reflexivity.
Qed.

(** C5: BGE, BGT, BLE and BLT of two integer constants, of kinds that may
    differ, fold to the constant of the unsigned comparisons of the bit
    patterns, the narrower one zero-extended to the wider width; with an
    operand that is an integer expression but not a constant the call is
    returned as it is. *)
Theorem BitCompare_unsigned
  (ctx : FoldingContext) (KIND : Z) (rank : nat) (name : string)
  (kx ky : Z) (cx cy : Constant Z) (pairs : list (Z * Z)) (shp : list Z) :
  In name BitCompareNames ->
  0 < kx <= LargestInt -> 0 < ky <= LargestInt ->
  Forall (fun v => 0 <= v < 2 ^ bits kx) (values cx) ->
  Forall (fun v => 0 <= v < 2 ^ bits ky) (values cy) ->
  Conform cx cy = Some (pairs, shp) ->
  FoldIntrinsicFunction lib env ctx KIND rank (SpecificIntrinsic name)
    [Some (ArgExpr (IntegerConstant kx cx));
     Some (ArgExpr (IntegerConstant ky cy))]
  = Ok (LogicalConstant KIND
          (mkConstant
             (map (fun p => SpecBitCompare name kx (fst p) ky (snd p)) pairs)
             shp),
        ctx) /\
  (forall (args : ActualArguments R) (e : Expr R),
      UnwrapExpr (arg args 0) = Some e \/ UnwrapExpr (arg args 1) = Some e ->
      HasCategory Integer e = true ->
      IsActuallyConstant e = false ->
      FoldIntrinsicFunction lib env ctx KIND rank (SpecificIntrinsic name) args
      = Ok (FunctionRef KIND rank (SpecificIntrinsic name) args, ctx)).
Proof.
  intros Hname Hkx Hky Hvx Hvy Hconf; split.
  - rewrite FoldIntrinsicFunction_bit_compare by assumption.
    cbn [arg nth_error constArg UnwrapExpr ZeroExtend].
    destruct (BitCompare_spec name kx ky 0 0 Hname Hkx Hky) as (fptr & Hf & _);
      try (split; [lia | apply Z.pow_pos_nonneg; unfold bits; lia]).
    rewrite Hf; cbn [set_arg].
    unfold FoldElementalIntrinsic2, IntegerArgument.
    cbn [arg nth_error UnwrapExpr]; rewrite Z.eqb_refl.
    rewrite Conform_map, Hconf.
    rewrite (MapScalar_pure
               (fun p : Z * Z => fptr (fst p) (snd p))).
    rewrite map_map; do 4 f_equal.
    apply map_ext_in; intros p Hp; cbn [fst snd].
    destruct (Conform_elements cx cy pairs shp Hconf p Hp) as [Hpx Hpy].
    rewrite Forall_forall in Hvx, Hvy.
    destruct (BitCompare_spec name kx ky (fst p) (snd p) Hname Hkx Hky
                (Hvx _ Hpx) (Hvy _ Hpy)) as (fptr' & Hf' & Heq).
    rewrite Hf in Hf'; inversion Hf'; subst fptr'; exact Heq.
  - intros args e He Hcat Hnc.
    rewrite FoldIntrinsicFunction_bit_compare by assumption.
    assert (Hnone : forall a, UnwrapExpr a = Some e -> constArg a = None).
    { intros a Ha; unfold constArg; rewrite Ha.
      destruct e; try reflexivity; discriminate. }
    destruct He as [He|He]; rewrite (Hnone _ He);
      [|destruct (constArg (arg args 0))]; reflexivity.
Qed.

Lemma FoldIntrinsicFunction_btest
  (ctx : FoldingContext) (KIND : Z) (rank : nat) (args : ActualArguments R) :
  FoldIntrinsicFunction lib env ctx KIND rank (SpecificIntrinsic "btest") args
  = match UnwrapSome Integer (arg args 0) with
    | Some ix =>
        Ok (FoldElementalIntrinsic2
              (IntegerArgument (KindOf ix)) (IntegerArgument KIND)
              (btestScalar lib KIND (KindOf ix))
              ctx KIND rank (SpecificIntrinsic "btest") args)
    | None => Ok (FunctionRef KIND rank (SpecificIntrinsic "btest") args, ctx)
    end.
Proof. reflexivity. Qed.

(** C6: BTEST of two scalar constants with the position outside
    [0, bits) says "POS out of range" into the context and still folds to
    the constant of what the bit-test primitive returns for that position;
    on no arguments whatever does the rule abort. *)
Theorem BTEST_out_of_range
  (ctx : FoldingContext) (KIND : Z) (rank : nat) (IT x pos : Z) :
  let posVal := ToInt64 KIND pos in
  let diagnostic := mkMessage "POS=%jd out of range for BTEST" posVal in
  posVal < 0 \/ bits IT <= posVal ->
  FoldIntrinsicFunction lib env ctx KIND rank (SpecificIntrinsic "btest")
    [Some (ArgExpr (IntegerConstant IT (ScalarConstant x)));
     Some (ArgExpr (IntegerConstant KIND (ScalarConstant pos)))]
  = Ok (LogicalScalar KIND (BTEST lib IT x posVal), Say ctx diagnostic) /\
  (forall ms, messages ctx = Some ms ->
              messages (Say ctx diagnostic) = Some (ms ++ [diagnostic])) /\
  (forall (args : ActualArguments R) (why : string),
      FoldIntrinsicFunction lib env ctx KIND rank (SpecificIntrinsic "btest")
        args <> Abort why).
Proof.
  intros posVal diagnostic Hpos; split; [|split].
  - rewrite FoldIntrinsicFunction_btest.
    unfold UnwrapSome, FoldElementalIntrinsic2, IntegerArgument.
    cbn [arg nth_error UnwrapExpr HasCategory GetType category
         TypeCategory_eqb KindOf kind].
    rewrite !Z.eqb_refl.
    cbn [Conform ScalarConstant shape values MapScalar fst snd].
    unfold btestScalar; fold posVal.
    replace ((posVal <? 0) || (posVal >=? bits IT)) with true; [reflexivity|].
    symmetry; apply orb_true_iff.
    destruct Hpos; [left; apply Z.ltb_lt | right; apply Z.geb_le]; lia.
  - intros ms Hms; unfold Say; rewrite Hms; reflexivity.
  - intros args why; rewrite FoldIntrinsicFunction_btest.
    destruct (UnwrapSome Integer (arg args 0)); discriminate.
Qed.

End ElementalProperties.

(** ** The dispatcher *)

Lemma isOneOf_In (name : string) (names : list string) :
  isOneOf name names = true -> In name names.
Proof.
  unfold isOneOf; intros H.
  apply existsb_exists in H as (n & Hn & E).
  apply String.eqb_eq in E; subst; assumption.
Qed.

Section DispatcherProperties.

Variable R : Type.
Variable lib : ScalarLibrary R.
Variable env : Collaborators R.

(** A name the dispatcher has no branch for falls through to the final
    [return]. *)
Lemma FoldIntrinsicFunction_other_name
  (ctx : FoldingContext) (KIND : Z) (rank : nat) (name : string)
  (args : ActualArguments R) :
  isOneOf name DispatchedNames = false ->
  FoldIntrinsicFunction lib env ctx KIND rank (SpecificIntrinsic name) args
  = Ok (FunctionRef KIND rank (SpecificIntrinsic name) args, ctx).
Proof.
  unfold isOneOf, DispatchedNames, SpecRuleNames, IeeeSupportNames.
  cbn [app existsb]; intros H.
  repeat (apply orb_false_iff in H; destruct H as [? H]).
  unfold FoldIntrinsicFunction, isOneOf, IeeeSupportNames; cbn [existsb].
  repeat match goal with
         | E : String.eqb name _ = false |- _ => rewrite E; clear E
         end.
  reflexivity.
Qed.

Lemma arg_set_arg_later (e : Expr R) (args : ActualArguments R) (i : nat) :
  arg (set_arg 0 e args) (S i) = arg args (S i).
Proof. destruct args; reflexivity. Qed.

Lemma length_set_arg (e : Expr R) (args : ActualArguments R) :
  List.length (set_arg 0 e args) = List.length args.
Proof. destruct args; reflexivity. Qed.

Lemma cRoundOf_set_arg (e : Expr R) (args : ActualArguments R) :
  cRoundOf (set_arg 0 e args) = cRoundOf args.
Proof.
  unfold cRoundOf; rewrite length_set_arg, arg_set_arg_later; reflexivity.
Qed.

Lemma RoundIsUsable_set_arg (e : Expr R) (args : ActualArguments R) :
  RoundIsUsable (set_arg 0 e args) = RoundIsUsable args.
Proof.
  unfold RoundIsUsable; rewrite cRoundOf_set_arg, arg_set_arg_later.
  reflexivity.
Qed.

Lemma cRoundOf_unwrapped (args : ActualArguments R) (r : Expr R) :
  cRoundOf args = Some r -> UnwrapExpr (arg args 2) = Some r.
Proof.
  unfold cRoundOf, UnwrapSome.
  destruct (3 <=? List.length args)%nat; [|discriminate].
  destruct (UnwrapExpr (arg args 2)) as [e|]; [|discriminate].
  destruct (HasCategory Logical e); congruence.
Qed.

(** With a scalar ROUND= the rounding mode is always determined. *)
Lemma roundingModeOf_total (args : ActualArguments R) :
  WellFormedArguments args = true ->
  RoundIsUsable args = true ->
  exists mode, roundingModeOf (cRoundOf args) = Ok mode.
Proof.
  unfold WellFormedArguments, RoundIsUsable, roundingModeOf.
  intros Hwf Hround; apply andb_true_iff in Hwf as [_ Hwf].
  destruct (cRoundOf args) as [r|] eqn:Hr; [|eexists; reflexivity].
  rewrite (cRoundOf_unwrapped args r Hr) in Hround.
  rewrite Hround in Hwf; cbn [negb orb] in Hwf.
  destruct (GetScalarLogical r); [eexists; reflexivity|discriminate].
Qed.

(** The element vector is computed exactly in the four cases of the range
    test, and the computation never aborts on a constant source. *)
Lemma OutOfRangeResult_total (folded : Expr R) (args : ActualArguments R) :
  IsActuallyConstant folded = true ->
  WellFormedArguments args = true ->
  match OutOfRangeResult lib folded (set_arg 0 folded args) with
  | Ok o =>
      isSome o
      = (IsTyped Real (arg args 1) &&
           (HasCategory Integer folded || HasCategory Real folded)
         || IsTyped Integer (arg args 1) &&
              (HasCategory Integer folded
               || HasCategory Real folded && RoundIsUsable args))
  | Abort _ => False
  end.
Proof.
  intros Hconst Hwf; unfold OutOfRangeResult.
  rewrite RoundIsUsable_set_arg, cRoundOf_set_arg, arg_set_arg_later.
  unfold UnwrapSome, IsTyped.
  destruct (UnwrapExpr (arg args 1)) as [mold|]; [|reflexivity].
  destruct (HasCategory Real mold) eqn:Hreal.
  - rewrite (HasCategory_unique mold Real Integer Hreal) by discriminate.
    destruct folded; try discriminate; reflexivity.
  - destruct (HasCategory Integer mold) eqn:Hint;
      [|destruct folded; reflexivity].
    destruct folded; try discriminate; try reflexivity;
      cbn [HasCategory GetType category TypeCategory_eqb orb andb];
      destruct (RoundIsUsable args) eqn:Hround; try reflexivity.
    destruct (roundingModeOf_total args Hwf Hround) as (mode & ->).
    reflexivity.
Qed.

Lemma constArg_IsBitPattern (a : option (ActualArgument R)) :
  isSome (constArg a) = IsBitPattern a.
Proof.
  unfold constArg, IsBitPattern.
  destruct (UnwrapExpr a) as [e|]; [destruct e|]; reflexivity.
Qed.

Lemma IntegerArgument_constant (k : Z) (a : option (ActualArgument R))
  (c : Constant Z) :
  IntegerArgument k a = Some c -> IsConstantOf Integer a = true.
Proof.
  unfold IntegerArgument, IsConstantOf.
  destruct (UnwrapExpr a) as [e|]; [destruct e|]; try discriminate.
  reflexivity.
Qed.

Lemma UnwrapSome_IsTyped (cat : TypeCategory) (a : option (ActualArgument R)) :
  isSome (UnwrapSome cat a) = IsTyped cat a.
Proof.
  unfold UnwrapSome, IsTyped.
  destruct (UnwrapExpr a) as [e|]; [|reflexivity].
  destruct (HasCategory cat e); reflexivity.
Qed.

Ltac unmet_reduction :=
  unfold FoldAllAnyParity;
  destruct (ProcessReductionArgs _ 0 1) as [[? ?]|]; [discriminate|reflexivity].

Ltac unmet_inquiry :=
  destruct (TypeInquiry _ _ _); [discriminate|reflexivity].

Ltac unmet_bit_compare Hpre :=
  rewrite <- !constArg_IsBitPattern in Hpre;
  destruct (constArg (arg _ 0));
    [destruct (constArg (arg _ 1)); [discriminate|reflexivity]|reflexivity].

Ltac unmet_classification Hpre :=
  unfold FoldElementalIntrinsic1;
  destruct (RealArgument DefaultReal (arg _ 0)); [discriminate|];
  destruct (ConstantOperand _); cbv beta iota; rewrite ?Restore_same;
  reflexivity.

Ltac unmet_iostat Hpre :=
  let E := fresh "E" in
  unfold FoldElementalIntrinsic1;
  destruct (IntegerArgument Int64 (arg _ 0)) eqn:E;
    [rewrite (IntegerArgument_constant _ _ _ E) in Hpre; discriminate|];
  destruct (ConstantOperand _); reflexivity.

Ltac unmet_character Hpre :=
  rewrite <- !UnwrapSome_IsTyped in Hpre;
  destruct (UnwrapSome Character (arg _ 0));
    [destruct (UnwrapSome Character (arg _ 1)); [discriminate|reflexivity]
    |reflexivity].

Lemma ResolvedCall_slots (name : string) (args : ActualArguments R) :
  ResolvedCall name args = true ->
  (SlotsIndexed name <= List.length args)%nat.
Proof.
  unfold ResolvedCall; intros H.
  apply andb_true_iff in H as [H _]; apply andb_true_iff in H as [H _].
  apply Nat.leb_le; exact H.
Qed.

Lemma ResolvedCall_range_test (args : ActualArguments R) :
  ResolvedCall "out_of_range" args = true ->
  WellFormedArguments args = true.
Proof.
  intros H; pose proof (ResolvedCall_slots _ _ H) as Hslots.
  unfold ResolvedCall in H; apply andb_true_iff in H as [_ H].
  cbn [String.eqb Ascii.eqb Bool.eqb negb orb] in H.
  unfold WellFormedArguments; fold (RoundIsScalar args); rewrite H.
  change (SlotsIndexed "out_of_range") with 2%nat in Hslots.
  destruct args; [inversion Hslots|reflexivity].
Qed.

(** A rule of the table whose fold precondition is not met returns the
    call: the node itself, and for the range test the node with its source
    argument folded in place; the context is the one passed in. *)
Theorem Unmet_precondition_returns_call
  (ctx : FoldingContext) (KIND : Z) (rank : nat) (name : string)
  (args : ActualArguments R) :
  isOneOf name SpecRuleNames = true ->
  ResolvedCall name args = true ->
  RulePrecondition env ctx name args = false ->
  FoldIntrinsicFunction lib env ctx KIND rank (SpecificIntrinsic name) args
  = Ok (Unevaluated env ctx KIND rank name args, ctx).
Proof.
  intros Hname Hres Hpre; apply isOneOf_In in Hname.
  unfold SpecRuleNames, IeeeSupportNames in Hname; cbn [app In] in Hname.
  repeat destruct Hname as [<-|Hname]; try contradiction;
    unfold RulePrecondition, isOneOf, BitCompareNames, IeeeSupportNames in Hpre;
    cbn [existsb String.eqb Ascii.eqb Bool.eqb orb] in Hpre;
    unfold FoldIntrinsicFunction, Unevaluated, isOneOf, IeeeSupportNames;
    cbn [existsb String.eqb Ascii.eqb Bool.eqb orb];
    try discriminate Hpre.
  - unmet_reduction.
  - unmet_reduction.
  - unmet_reduction.
  - (* associated *)
    unfold IsNullLiteral in Hpre.
    destruct (UnwrapExpr (arg args 0)) as [e|]; [|reflexivity].
    destruct (IsNullPointer e); [|reflexivity].
    cbn [negb andb] in *.
    destruct (arg args 1) as [a1|]; [|discriminate].
    destruct (UnwrapExpr (Some a1)); [rewrite Hpre|]; reflexivity.
  - unmet_bit_compare Hpre.
  - unmet_bit_compare Hpre.
  - unmet_bit_compare Hpre.
  - unmet_bit_compare Hpre.
  - (* btest *)
    unfold UnwrapSome.
    destruct (UnwrapExpr (arg args 0)) as [e|]; [|reflexivity].
    destruct (HasCategory Integer e); [|reflexivity].
    unfold FoldElementalIntrinsic2.
    destruct (IntegerArgument (KindOf e) (arg args 0)) eqn:E0; [|reflexivity].
    destruct (IntegerArgument KIND (arg args 1)) eqn:E1; [|reflexivity].
    rewrite (IntegerArgument_constant _ _ _ E0),
            (IntegerArgument_constant _ _ _ E1) in Hpre.
    discriminate.
  - unmet_inquiry.
  - unmet_classification Hpre.
  - unmet_classification Hpre.
  - unmet_classification Hpre.
  - unmet_classification Hpre.
  - (* is_contiguous *)
    apply ResolvedCall_slots in Hres.
    change (SlotsIndexed "is_contiguous") with 1%nat in Hres.
    destruct args as [|[[e|dummy]|] rest]; [inversion Hres|..];
      cbn [arg nth_error] in Hpre.
    + destruct (IsContiguous env e ctx); [discriminate|reflexivity].
    + destruct (IsContiguousDummy env dummy ctx); [discriminate|reflexivity].
    + reflexivity.
  - unmet_iostat Hpre.
  - unmet_iostat Hpre.
  - unmet_character Hpre.
  - unmet_character Hpre.
  - unmet_character Hpre.
  - unmet_character Hpre.
  - (* logical *)
    rewrite <- UnwrapSome_IsTyped in Hpre.
    destruct (UnwrapSome Logical (arg args 0)); [discriminate|reflexivity].
  - (* out_of_range *)
    unfold FoldOutOfRange, OutOfRangePrecondition in *.
    destruct (UnwrapExpr (arg args 0)) as [cx|]; [|reflexivity].
    destruct (Fold env (DiscardMessages ctx) cx) as [folded ctx1].
    cbn [fst]; rewrite !Restore_same.
    destruct (IsActuallyConstant folded) eqn:Hc; [|reflexivity].
    cbn [andb] in Hpre.
    pose proof (OutOfRangeResult_total folded args Hc
                  (ResolvedCall_range_test args Hres)) as Ht.
    destruct (OutOfRangeResult lib folded (set_arg 0 folded args))
      as [[r|]|why]; [|reflexivity|contradiction].
    cbn [isSome] in Ht; rewrite <- Ht in Hpre; cbn [andb] in Hpre.
    destruct (GetConstantExtents env ctx1 folded); [discriminate|reflexivity].
  - unmet_inquiry.
Qed.

(** A name the dispatcher has no branch for is returned as the same call
    with the same context, whatever the arguments; DOT_PRODUCT is handed
    to the dot-product folder and what that returns is the result. *)
Theorem Unlisted_name_returned_unchanged
  (ctx : FoldingContext) (KIND : Z) (rank : nat) (name : string)
  (args : ActualArguments R) :
  let fold :=
    FoldIntrinsicFunction lib env ctx KIND rank (SpecificIntrinsic name) args in
  let call := FunctionRef KIND rank (SpecificIntrinsic name) args in
  (isOneOf name DispatchedNames = false -> fold = Ok (call, ctx)) /\
  (name = "dot_product" -> fold = FoldDotProduct env ctx call).
Proof.
  intros fold call; split.
  - apply FoldIntrinsicFunction_other_name.
  - intros ->; reflexivity.
Qed.

Ltac reduce_dispatch :=
  unfold FoldIntrinsicFunction, isOneOf, IeeeSupportNames;
  cbn [existsb String.eqb Ascii.eqb Bool.eqb orb].

Ltac split_outcome :=
  repeat first
    [ discriminate
    | match goal with
      | |- (match ?x with _ => _ end) <> _ => destruct x
      end ].

(** On a call the dispatcher can index (every slot its branch reads is
    there, the first argument of ASSOCIATED is present, a constant ROUND=
    is scalar) no branch of the dispatcher itself aborts: the [die] of the
    bit compares, the [DEREF]s and the [.value()] of the range test and the
    [.at(0)] of the contiguity test are out of reach.  DOT_PRODUCT is the
    dot-product folder's business. *)
Theorem Dispatcher_never_aborts
  (ctx : FoldingContext) (KIND : Z) (rank : nat) (name : string)
  (args : ActualArguments R) (why : string) :
  ResolvedCall name args = true ->
  name <> "dot_product" ->
  FoldIntrinsicFunction lib env ctx KIND rank (SpecificIntrinsic name) args
  <> Abort why.
Proof.
  intros Hres Hname.
  destruct (isOneOf name DispatchedNames) eqn:Hin;
    [|rewrite FoldIntrinsicFunction_other_name by assumption; discriminate].
  apply isOneOf_In in Hin.
  unfold DispatchedNames, SpecRuleNames, IeeeSupportNames in Hin.
  cbn [app In] in Hin.
  repeat destruct Hin as [<-|Hin]; try contradiction; try congruence;
    reduce_dispatch; try discriminate.
  - (* bge *) unfold BitCompare; cbn [String.eqb Ascii.eqb Bool.eqb];
      split_outcome.
  - unfold BitCompare; cbn [String.eqb Ascii.eqb Bool.eqb]; split_outcome.
  - unfold BitCompare; cbn [String.eqb Ascii.eqb Bool.eqb]; split_outcome.
  - unfold BitCompare; cbn [String.eqb Ascii.eqb Bool.eqb]; split_outcome.
  - split_outcome.
  - split_outcome.
  - split_outcome.
  - split_outcome.
  - split_outcome.
  - split_outcome.
  - (* is_contiguous *)
    apply ResolvedCall_slots in Hres.
    change (SlotsIndexed "is_contiguous") with 1%nat in Hres.
    destruct args as [|a rest]; [inversion Hres|]; split_outcome.
  - split_outcome.
  - split_outcome.
  - split_outcome.
  - split_outcome.
  - split_outcome.
  - split_outcome.
  - split_outcome.
  - (* out_of_range *)
    unfold FoldOutOfRange.
    destruct (UnwrapExpr (arg args 0)) as [cx|]; [|discriminate].
    destruct (Fold env (DiscardMessages ctx) cx) as [folded ctx1].
    destruct (IsActuallyConstant folded) eqn:Hc; [|discriminate].
    pose proof (OutOfRangeResult_total folded args Hc
                  (ResolvedCall_range_test args Hres)) as Ht.
    destruct (OutOfRangeResult lib folded (set_arg 0 folded args))
      as [[r|]|w]; [|discriminate|contradiction].
    split_outcome.
  - split_outcome.
Qed.

End DispatcherProperties.

(** * The folder on the sample instance *)

(** The sample real library reports a comparison with a NaN as unordered. *)
Lemma Sample_compare_NaN (u v : Sample.real) :
  IsNotANumber Sample.library u || IsNotANumber Sample.library v = true ->
  Compare Sample.library u v = Relation.Unordered.
Proof.
  destruct u, v; simpl; intros H; try reflexivity; discriminate.
Defined.

(** [.TRUE. .AND. .FALSE.] folds to [.FALSE.]. *)
Lemma FoldLogicalOperation_truth_table_witness :
  GetScalarLogical (Sample.lg true) = Some true /\
  GetScalarLogical (Sample.lg false) = Some false /\
  FoldLogicalOperation Sample.collaborators Sample.context 4
    LogicalOperator.And (Sample.lg true) (Sample.lg false)
  = Ok (LogicalScalar 4 false).
Proof.
  split; [reflexivity|split; [reflexivity|]].
  exact (proj1 (FoldLogicalOperation_truth_table Sample.real
                  Sample.collaborators Sample.context 4
                  (Sample.lg true) (Sample.lg false) true false
                  eq_refl eq_refl)).
Defined.

(** [NaN /= 1.0] folds to [.TRUE.]. *)
Lemma FoldRelational_real_NaN_witness :
  FoldRelational Sample.library Sample.collaborators Sample.context
    (mkType Real 4) RelationalOperator.NE
    (Sample.rl 4 Sample.NaN) (Sample.rl 4 (Sample.Halves 2))
  = LogicalScalar LogicalResult true.
Proof.
  exact (FoldRelational_real_NaN Sample.real Sample.library
           Sample.collaborators Sample.context 4 RelationalOperator.NE
           (Sample.rl 4 Sample.NaN) (Sample.rl 4 (Sample.Halves 2))
           Sample.NaN (Sample.Halves 2)
           Sample_compare_NaN eq_refl eq_refl eq_refl).
Defined.

(** ALL of an empty vector folds to [.TRUE.]. *)
Lemma FoldAllAnyParity_whole_array_witness :
  In 0 (shape (mkConstant (@nil bool) [0])) /\
  FoldIntrinsicFunction Sample.library Sample.collaborators Sample.context
    4 0 (SpecificIntrinsic "all") [Some (ArgExpr (Sample.vector [])); None]
  = Ok (LogicalScalar 4 true, Sample.context).
Proof.
  split; [left; reflexivity|].
  refine (proj1 (proj2 (proj1 (FoldAllAnyParity_whole_array Sample.real
                                 Sample.library Sample.collaborators
                                 Sample.context 4 0
                                 [Some (ArgExpr (Sample.vector [])); None]
                                 4 (mkConstant [] [0]) 4 1 (ScalarConstant 1)
                                 eq_refl _ eq_refl)
                         (or_introl eq_refl))
                  (or_introl eq_refl))).
  apply Nat.le_refl.
Defined.

(** The 8-bit pattern 0xFF, -1 as a signed value, is above 0x01. *)
Lemma BitCompare_unsigned_witness :
  SignedValue 1 255 = -1 /\
  FoldIntrinsicFunction Sample.library Sample.collaborators Sample.context
    4 0 (SpecificIntrinsic "bgt")
    [Some (ArgExpr (IntegerConstant 1 (ScalarConstant 255)));
     Some (ArgExpr (IntegerConstant 1 (ScalarConstant 1)))]
  = Ok (LogicalScalar 4 true, Sample.context).
Proof.
  split; [reflexivity|].
  refine (proj1 (BitCompare_unsigned Sample.real Sample.library
                   Sample.collaborators Sample.context 4 0 "bgt" 1 1
                   (ScalarConstant 255) (ScalarConstant 1) [(255, 1)] []
                   _ _ _ _ _ eq_refl)).
  - right; left; reflexivity.
  - unfold LargestInt; lia.
  - unfold LargestInt; lia.
  - constructor; [|constructor].
    split; [apply Z.leb_le | apply Z.ltb_lt]; reflexivity.
  - constructor; [|constructor].
    split; [apply Z.leb_le | apply Z.ltb_lt]; reflexivity.
Defined.

(** BTEST(5, 99) on a 32-bit integer: a diagnostic and a constant. *)
Lemma BTEST_out_of_range_witness :
  bits 4 <= ToInt64 4 99 /\
  FoldIntrinsicFunction Sample.library Sample.collaborators Sample.context
    4 0 (SpecificIntrinsic "btest")
    [Some (ArgExpr (IntegerConstant 4 (ScalarConstant 5)));
     Some (ArgExpr (IntegerConstant 4 (ScalarConstant 99)))]
  = Ok (LogicalScalar 4 false,
        mkContext
          (Some [mkMessage "POS=%jd out of range for BTEST" 99])).
Proof.
  assert (H : bits 4 <= ToInt64 4 99) by (apply Z.leb_le; reflexivity).
  split; [exact H|].
  exact (proj1 (BTEST_out_of_range Sample.real Sample.library
                  Sample.collaborators Sample.context 4 0 4 5 99
                  (or_intror H))).
Defined.

(** OUT_OF_RANGE(127.5, 0_1, .TRUE.): rounding to nearest gives 128, which
    an 8-bit integer cannot hold; truncation gives 127, which it can. *)
Lemma OutOfRange_real_to_integer_witness :
  FoldIntrinsicFunction Sample.library Sample.collaborators Sample.context
    4 0 (SpecificIntrinsic "out_of_range")
    [Some (ArgExpr (Sample.rl 4 (Sample.Halves 255)));
     Some (ArgExpr (Sample.int 1 0)); Some (ArgExpr (Sample.lg true))]
  = Ok (LogicalScalar 4 true, Sample.context) /\
  FoldIntrinsicFunction Sample.library Sample.collaborators Sample.context
    4 0 (SpecificIntrinsic "out_of_range")
    [Some (ArgExpr (Sample.rl 4 (Sample.Halves 255)));
     Some (ArgExpr (Sample.int 1 0)); None]
  = Ok (LogicalScalar 4 false, Sample.context).
Proof.
  pose proof (OutOfRange_real_to_integer Sample.real Sample.library
                Sample.collaborators Sample.context
                (DiscardMessages Sample.context) 4 0
                (Sample.rl 4 (Sample.Halves 255)) (Sample.int 1 0)
                4 (ScalarConstant (Sample.Halves 255)) []
                eq_refl eq_refl eq_refl) as H.
  split.
  - exact (proj1 (proj2 (proj2 (proj2 H))) (Sample.lg true) [] eq_refl).
  - exact (proj1 (proj2 H) []).
Defined.

(** OUT_OF_RANGE(NaN, 0.0) is [.FALSE.]. *)
Lemma OutOfRange_real_to_real_witness :
  FoldIntrinsicFunction Sample.library Sample.collaborators Sample.context
    4 0 (SpecificIntrinsic "out_of_range")
    [Some (ArgExpr (Sample.rl 4 Sample.NaN));
     Some (ArgExpr (Sample.rl 4 (Sample.Halves 0)))]
  = Ok (LogicalScalar 4 false, Sample.context).
Proof.
  exact (OutOfRange_real_to_real Sample.real Sample.library
           Sample.collaborators Sample.context
           (DiscardMessages Sample.context) 4 0
           (Sample.rl 4 Sample.NaN) (Sample.rl 4 (Sample.Halves 0)) []
           4 (ScalarConstant Sample.NaN) []
           eq_refl eq_refl eq_refl).
Defined.

(** With a real mold a ROUND= that is not a constant changes nothing. *)
Lemma OutOfRange_round_ignored_witness :
  FoldIntrinsicFunction Sample.library Sample.collaborators Sample.context
    4 0 (SpecificIntrinsic "out_of_range")
    [Some (ArgExpr (Sample.rl 4 (Sample.Inf false)));
     Some (ArgExpr (Sample.rl 8 (Sample.Halves 0)));
     Some (ArgExpr (Opaque (mkType Logical 4) 0 "round"))]
  = Ok (LogicalScalar 4 false, Sample.context).
Proof.
  exact (proj1 (OutOfRange_round_ignored Sample.real Sample.library
                  Sample.collaborators Sample.context
                  (DiscardMessages Sample.context) 4 0
                  (Sample.rl 4 (Sample.Inf false))
                  (Sample.rl 4 (Sample.Inf false)) []
                  eq_refl eq_refl)
           (Sample.rl 8 (Sample.Halves 0)) 4
           (ScalarConstant (Sample.Inf false))
           [Some (ArgExpr (Opaque (mkType Logical 4) 0 "round"))]
           eq_refl eq_refl).
Defined.

(** OUT_OF_RANGE(300, 0_1) with a front end that cannot tell the extents
    of the source: the element result is there, the call is returned. *)
Lemma OutOfRange_needs_extents_witness :
  OutOfRangeResult Sample.library (Sample.int 4 300)
    [Some (ArgExpr (Sample.int 4 300)); Some (ArgExpr (Sample.int 1 0))]
  = Ok (Some [true]) /\
  FoldIntrinsicFunction Sample.library Sample.shapeless Sample.context
    4 0 (SpecificIntrinsic "out_of_range")
    [Some (ArgExpr (Sample.int 4 300)); Some (ArgExpr (Sample.int 1 0))]
  = Ok (Sample.call "out_of_range" [Sample.int 4 300; Sample.int 1 0],
        Sample.context).
Proof.
  split; [reflexivity|].
  exact (proj1 (OutOfRange_needs_extents Sample.real Sample.library
                  Sample.shapeless Sample.context
                  (DiscardMessages Sample.context) 4 0
                  (Sample.int 4 300) (Sample.int 4 300)
                  (Some (ArgExpr (Sample.int 1 0))) [] [true]
                  eq_refl eq_refl eq_refl)
           eq_refl).
Defined.

(** The testable properties of the specification, run on the sample
    instance. *)
Example all_of_true_vector :
  Sample.fold "all" [Sample.vector [true; true; true]]
  = Ok (LogicalScalar 4 true, Sample.context).
Proof. reflexivity. Qed.

Example all_with_a_false_element :
  Sample.fold "all" [Sample.vector [true; false; true]]
  = Ok (LogicalScalar 4 false, Sample.context).
Proof. reflexivity. Qed.

Example any_of_false_vector :
  Sample.fold "any" [Sample.vector [false; false]]
  = Ok (LogicalScalar 4 false, Sample.context).
Proof. reflexivity. Qed.

Example any_with_a_true_element :
  Sample.fold "any" [Sample.vector [false; true]]
  = Ok (LogicalScalar 4 true, Sample.context).
Proof. reflexivity. Qed.

Example parity_of_two_true :
  Sample.fold "parity" [Sample.vector [true; true; false]]
  = Ok (LogicalScalar 4 false, Sample.context).
Proof. reflexivity. Qed.

Example parity_of_one_true :
  Sample.fold "parity" [Sample.vector [true]]
  = Ok (LogicalScalar 4 true, Sample.context).
Proof. reflexivity. Qed.

Example any_along_the_first_axis :
  Sample.fold "any"
    [LogicalConstant 4 (mkConstant [true; false; false; false] [2; 2]);
     Sample.int 4 1]
  = Ok (LogicalConstant 4 (mkConstant [true; false] [2]), Sample.context).
Proof. reflexivity. Qed.

Example blt_of_0xFF_and_0x01 :
  Sample.fold "blt" [Sample.int 1 255; Sample.int 4 1]
  = Ok (LogicalScalar 4 false, Sample.context).
Proof. reflexivity. Qed.

Example btest_bit_0_of_5 :
  Sample.fold "btest" [Sample.int 4 5; Sample.int 4 0]
  = Ok (LogicalScalar 4 true, Sample.context).
Proof. reflexivity. Qed.

Example btest_bit_1_of_5 :
  Sample.fold "btest" [Sample.int 4 5; Sample.int 4 1]
  = Ok (LogicalScalar 4 false, Sample.context).
Proof. reflexivity. Qed.

Example out_of_range_300_for_int8 :
  Sample.fold "out_of_range" [Sample.int 4 300; Sample.int 1 0]
  = Ok (LogicalScalar 4 true, Sample.context).
Proof. reflexivity. Qed.

Example out_of_range_NaN_for_int8 :
  Sample.fold "out_of_range" [Sample.rl 4 Sample.NaN; Sample.int 1 0]
  = Ok (LogicalScalar 4 true, Sample.context).
Proof. reflexivity. Qed.

Example out_of_range_array_round :
  Sample.fold "out_of_range"
    [Sample.rl 4 (Sample.Halves 3); Sample.int 1 0;
     LogicalConstant 4 (mkConstant [true; false] [2])]
  = Abort "bad optional access".
Proof. reflexivity. Qed.

Example not_of_true :
  FoldNot Sample.collaborators Sample.context 4 (Sample.lg true)
  = LogicalScalar 4 false.
Proof. reflexivity. Qed.

Example three_less_than_five :
  FoldRelational Sample.library Sample.collaborators Sample.context
    (mkType Integer 4) RelationalOperator.LT (Sample.int 4 3) (Sample.int 4 5)
  = LogicalScalar LogicalResult true.
Proof. reflexivity. Qed.

Example and_with_a_variable :
  FoldLogicalOperation Sample.collaborators Sample.context 4
    LogicalOperator.And (Opaque (mkType Logical 4) 0 "x") (Sample.lg true)
  = Ok (LogicalOperation 4 LogicalOperator.And
          (Opaque (mkType Logical 4) 0 "x") (Sample.lg true)).
Proof. reflexivity. Qed.


(** * Further properties of the folder *)


(** ** Edges of the range test *)

Section RangeEdges.

Variable R : Type.
Variable lib : ScalarLibrary R.
Variable env : Collaborators R.

Local Abbreviation out_of_range := (SpecificIntrinsic "out_of_range").

(** The element vector, when there is one, has one result per element of
    an integer or real source. *)
Lemma OutOfRangeResult_length (folded : Expr R) (args : ActualArguments R)
  (result : list bool) :
  OutOfRangeResult lib folded args = Ok (Some result) ->
  (exists kx xConst,
      folded = IntegerConstant kx xConst /\
      List.length result = List.length (values xConst)) \/
  (exists kx xConst,
      folded = RealConstant kx xConst /\
      List.length result = List.length (values xConst)).
Proof.
  unfold OutOfRangeResult.
  destruct (UnwrapSome Real (arg args 1)) as [realMold|].
  - destruct folded; cbn;
      repeat match goal with
             | |- context [if ?b then _ else _] => destruct b
             end;
      intros E; try discriminate E; inversion E; subst;
      [left|right]; do 2 eexists; (split; [reflexivity|apply length_map]).
  - destruct (UnwrapSome Integer (arg args 1)) as [intMold|]; [|discriminate].
    destruct (roundingModeOf (cRoundOf args)) as [mode|w];
      destruct folded; cbn;
      repeat match goal with
             | |- context [if ?b then _ else _] => destruct b
             end;
      intros E; try discriminate E; inversion E; subst;
      [left|right|left]; do 2 eexists;
      (split; [reflexivity|apply length_map]).
Qed.

(** Whenever the range test folds, the constant is of the result kind, has
    the extents the front end reports for the folded source and one
    element per element of that source, itself an integer or real
    constant. *)
Theorem OutOfRange_constant_has_source_shape
  (ctx ctx1 ctx' : FoldingContext) (KIND : Z) (rank : nat)
  (cx folded : Expr R) (a1 : option (ActualArgument R))
  (rest : ActualArguments R) (k : Z) (c : Constant bool) :
  Fold env (DiscardMessages ctx) cx = (folded, ctx1) ->
  FoldIntrinsicFunction lib env ctx KIND rank out_of_range
    (Some (ArgExpr cx) :: a1 :: rest)
  = Ok (LogicalConstant k c, ctx') ->
  k = KIND /\
  GetConstantExtents env ctx1 folded = Some (shape c) /\
  ((exists kx xConst,
       folded = IntegerConstant kx xConst /\
       List.length (values c) = List.length (values xConst)) \/
   (exists kx xConst,
       folded = RealConstant kx xConst /\
       List.length (values c) = List.length (values xConst))).
Proof.
  intros Hfold.
  rewrite FoldIntrinsicFunction_out_of_range.
  unfold FoldOutOfRange; cbn [arg nth_error UnwrapExpr].
  rewrite Hfold; cbn [set_arg].
  destruct (IsActuallyConstant folded); [|discriminate].
  destruct (OutOfRangeResult lib folded _) as [[result|]|w] eqn:Hres;
    try discriminate.
  destruct (GetConstantExtents env ctx1 folded) as [extents|];
    [|discriminate].
  intros E; inversion E; subst; cbn [shape values].
  repeat split.
  exact (OutOfRangeResult_length _ _ _ Hres).
Qed.

(** A third argument that is not a logical expression (an expression of
    another type, an assumed-type dummy) counts as no ROUND= at all: the
    real source is converted with truncation toward zero. *)
Theorem OutOfRange_round_of_other_type
  (ctx ctx1 : FoldingContext) (KIND : Z) (rank : nat) (cx mold : Expr R)
  (kx : Z) (xConst : Constant R) (extents : list Z)
  (a2 : option (ActualArgument R)) (more : ActualArguments R) :
  Fold env (DiscardMessages ctx) cx = (RealConstant kx xConst, ctx1) ->
  HasCategory Integer mold = true ->
  GetConstantExtents env ctx1 (RealConstant kx xConst) = Some extents ->
  UnwrapSome Logical a2 = None ->
  FoldIntrinsicFunction lib env ctx KIND rank out_of_range
    (Some (ArgExpr cx) :: Some (ArgExpr mold) :: a2 :: more)
  = Ok (LogicalConstant KIND
          (mkConstant
             (map (fun elt =>
                     negb (IsFinite lib elt) ||
                     test (flags (ToInteger lib (KindOf mold) kx
                                    RoundingMode.ToZero elt))
                          RealFlag.Overflow)
                  (values xConst))
             extents),
        ctx).
Proof.
  intros Hfold Hmold Hext Hround.
  rewrite (FoldOutOfRange_constant R lib env ctx ctx1 KIND rank cx _ _ _ Hfold)
    by reflexivity.
  cbv zeta; rewrite OutOfRangeResult_integer_mold by assumption.
  cbv zeta; cbn [HasCategory GetType category TypeCategory_eqb].
  unfold RoundIsUsable, cRoundOf.
  cbn [List.length Nat.leb arg nth_error]; rewrite Hround.
  cbn; rewrite Hext; reflexivity.
Qed.

(** A constant ROUND= that is not scalar passes the constancy guard and
    then fails [GetScalarConstantValue(...).value()]: the fold aborts. *)
Theorem OutOfRange_array_round_aborts
  (ctx ctx1 : FoldingContext) (KIND : Z) (rank : nat) (cx mold : Expr R)
  (kx : Z) (xConst : Constant R) (kr : Z) (round : Constant bool)
  (more : ActualArguments R) :
  Fold env (DiscardMessages ctx) cx = (RealConstant kx xConst, ctx1) ->
  HasCategory Integer mold = true ->
  GetScalarValue round = None ->
  FoldIntrinsicFunction lib env ctx KIND rank out_of_range
    (Some (ArgExpr cx) :: Some (ArgExpr mold)
     :: Some (ArgExpr (LogicalConstant kr round)) :: more)
  = Abort "bad optional access".
Proof.
  intros Hfold Hmold Hround.
  rewrite (FoldOutOfRange_constant R lib env ctx ctx1 KIND rank cx _ _ _ Hfold)
    by reflexivity.
  cbv zeta; rewrite OutOfRangeResult_integer_mold by assumption.
  cbv zeta; cbn [HasCategory GetType category TypeCategory_eqb].
  unfold RoundIsUsable, cRoundOf, UnwrapSome, roundingModeOf.
  cbn [List.length Nat.leb arg nth_error UnwrapExpr HasCategory GetType
       category TypeCategory_eqb IsActuallyConstant GetScalarLogical].
  rewrite Hround; reflexivity.
Qed.

(** With a mold that is neither real nor integer (or absent), or a source
    that folds to something neither integer nor real, the range test
    gives the call back, its source argument replaced by the folded one,
    and the context as it was. *)
Theorem OutOfRange_other_categories
  (ctx ctx1 : FoldingContext) (KIND : Z) (rank : nat) (cx folded : Expr R)
  (a1 : option (ActualArgument R)) (rest : ActualArguments R) :
  Fold env (DiscardMessages ctx) cx = (folded, ctx1) ->
  (IsTyped Real a1 = false /\ IsTyped Integer a1 = false) \/
  (HasCategory Integer folded = false /\ HasCategory Real folded = false) ->
  FoldIntrinsicFunction lib env ctx KIND rank out_of_range
    (Some (ArgExpr cx) :: a1 :: rest)
  = Ok (FunctionRef KIND rank out_of_range
          (Some (ArgExpr folded) :: a1 :: rest),
        ctx).
Proof.
  intros Hfold Hother.
  rewrite FoldIntrinsicFunction_out_of_range.
  unfold FoldOutOfRange; cbn [arg nth_error UnwrapExpr].
  rewrite Hfold; cbn [set_arg]; rewrite Restore_same.
  destruct (IsActuallyConstant folded); [|reflexivity].
  replace (OutOfRangeResult lib folded (Some (ArgExpr folded) :: a1 :: rest))
    with (@Ok (option (list bool)) None); [reflexivity|].
  unfold OutOfRangeResult; cbn [arg nth_error].
  destruct Hother as [[Hr Hi] | [Hi Hr]].
  - rewrite <- UnwrapSome_IsTyped in Hr, Hi.
    destruct (UnwrapSome Real a1); [discriminate|].
    destruct (UnwrapSome Integer a1); [discriminate|reflexivity].
  - rewrite Hi, Hr.
    destruct (UnwrapSome Real a1); [reflexivity|].
    destruct (UnwrapSome Integer a1); [|reflexivity].
    destruct (RoundIsUsable _); reflexivity.
Qed.

End RangeEdges.

(** ** Rules of the dispatcher the table leaves open *)

Lemma Forall2_map_pointwise {A} (f g : A -> bool) (P : bool -> bool -> Prop)
  (l : list A) :
  (forall x, In x l -> P (f x) (g x)) -> Forall2 P (map f l) (map g l).
Proof.
  induction l as [|x l IH]; intros H; simpl; constructor.
  - apply H; left; reflexivity.
  - apply IH; intros; apply H; right; assumption.
Qed.

Lemma positions_in_range (IT : Z) (positions : list Z) :
  Forall (fun pos => 0 <= pos < bits IT) positions ->
  filter (PositionOutOfRange IT) positions = [].
Proof.
  induction 1 as [|pos rest Hpos _ IH]; [reflexivity|]; cbn [filter].
  replace (PositionOutOfRange IT pos) with false; [exact IH|].
  symmetry; unfold PositionOutOfRange; apply orb_false_iff; split;
    [apply Z.ltb_ge | rewrite Z.geb_leb; apply Z.leb_gt]; lia.
Qed.

Section RuleProperties.

Variable R : Type.
Variable lib : ScalarLibrary R.
Variable env : Collaborators R.

(** ASSOCIATED, called with its first argument present and a slot for the
    second: it folds exactly when the first argument is a NULL() literal
    and the second is absent or a NULL() literal too, and then to
    [.FALSE.]; otherwise the call is returned; it never folds to
    [.TRUE.]. *)
Theorem Associated_folds_only_to_false
  (ctx : FoldingContext) (KIND : Z) (rank : nat)
  (pointer : ActualArgument R) (target : option (ActualArgument R))
  (rest : ActualArguments R) :
  let args := Some pointer :: target :: rest in
  let fold :=
    FoldIntrinsicFunction lib env ctx KIND rank (SpecificIntrinsic "associated")
      args in
  fold
  = Ok (if IsNullLiteral (Some pointer) &&
           match target with
           | Some a1 => IsNullLiteral (Some a1)
           | None => true
           end
        then LogicalScalar KIND false
        else FunctionRef KIND rank (SpecificIntrinsic "associated") args,
        ctx) /\
  (forall k c ctx',
      fold = Ok (LogicalConstant k c, ctx') -> c = ScalarConstant false).
Proof.
  intros args fold.
  assert (Hfold :
            fold
            = Ok (if IsNullLiteral (Some pointer) &&
                     match target with
                     | Some a1 => IsNullLiteral (Some a1)
                     | None => true
                     end
                  then LogicalScalar KIND false
                  else FunctionRef KIND rank (SpecificIntrinsic "associated")
                         args,
                  ctx)).
  { unfold fold, args, FoldIntrinsicFunction, IsNullLiteral.
    cbn [String.eqb Ascii.eqb Bool.eqb arg nth_error].
    destruct (UnwrapExpr (Some pointer)) as [e|]; [|reflexivity].
    destruct (IsNullPointer e); cbn [negb andb]; [|reflexivity].
    destruct target as [a1|]; [|reflexivity].
    destruct (UnwrapExpr (Some a1)); reflexivity. }
  split; [exact Hfold|].
  intros k c ctx'; rewrite Hfold.
  destruct (_ && _); intros E; inversion E; reflexivity.
Qed.

(** The two I/O status tests of an INTEGER(8) constant fold elementwise,
    keeping its shape, and as the two reserved codes differ no element is
    both an end-of-file and an end-of-record status. *)
Theorem Iostat_tests_exclusive
  (ctx : FoldingContext) (KIND : Z) (rank : nat) (args : ActualArguments R)
  (c : Constant Z) :
  FORTRAN_RUNTIME_IOSTAT_END env <> FORTRAN_RUNTIME_IOSTAT_EOR env ->
  IntegerArgument Int64 (arg args 0) = Some c ->
  let fold name :=
    FoldIntrinsicFunction lib env ctx KIND rank (SpecificIntrinsic name) args in
  exists ends eors,
    fold "is_iostat_end"
    = Ok (LogicalConstant KIND (mkConstant ends (shape c)), ctx) /\
    fold "is_iostat_eor"
    = Ok (LogicalConstant KIND (mkConstant eors (shape c)), ctx) /\
    List.length ends = List.length (values c) /\
    Forall2 (fun isEnd isEor => isEnd && isEor = false) ends eors.
Proof.
  intros Hcodes Harg fold.
  assert (Hconst : ConstantOperand args = true).
  { unfold ConstantOperand; unfold IntegerArgument in Harg.
    destruct (UnwrapExpr (arg args 0)) as [e|]; [|discriminate].
    destruct e; try discriminate; reflexivity. }
  exists (map (fun x => ToInt64 Int64 x =? FORTRAN_RUNTIME_IOSTAT_END env)
              (values c)),
         (map (fun x => ToInt64 Int64 x =? FORTRAN_RUNTIME_IOSTAT_EOR env)
              (values c)).
  unfold fold, FoldIntrinsicFunction, isOneOf, FoldElementalIntrinsic1, pure1.
  cbn [existsb String.eqb Ascii.eqb Bool.eqb orb].
  rewrite Hconst, Harg, !MapScalar_pure.
  repeat split; [apply length_map|].
  apply Forall2_map_pointwise; intros x _.
  destruct (ToInt64 Int64 x =? FORTRAN_RUNTIME_IOSTAT_END env) eqn:E1;
    [|reflexivity].
  destruct (ToInt64 Int64 x =? FORTRAN_RUNTIME_IOSTAT_EOR env) eqn:E2;
    [|reflexivity].
  apply Z.eqb_eq in E1, E2; congruence.
Qed.

(** The BTEST scalar function over the operand pairs: the bits in element
    order, and one diagnostic per position out of range, in that order. *)
Lemma MapScalar_btestScalar (KIND IT : Z) (pairs : list (Z * Z))
  (ctx : FoldingContext) :
  MapScalar (fun p => btestScalar lib KIND IT (fst p) (snd p)) pairs ctx
  = (map (fun p => BTEST lib IT (fst p) (ToInt64 KIND (snd p))) pairs,
     fold_left Say
       (map PositionDiagnostic
          (filter (PositionOutOfRange IT)
             (map (fun p => ToInt64 KIND (snd p)) pairs)))
       ctx).
Proof.
  revert ctx; induction pairs as [|p pairs IH]; intros ctx; [reflexivity|].
  cbn [MapScalar map filter]; unfold btestScalar at 1.
  fold (PositionOutOfRange IT (ToInt64 KIND (snd p))).
  fold (PositionDiagnostic (ToInt64 KIND (snd p))).
  rewrite IH.
  destruct (PositionOutOfRange IT (ToInt64 KIND (snd p))); reflexivity.
Qed.

(** BTEST of conformable constants folds every element, and the context
    receives exactly one diagnostic per element whose position is outside
    [0, bits), in element order; with every position in range the context
    is untouched. *)
Theorem BTEST_diagnostics_per_element
  (ctx : FoldingContext) (KIND : Z) (rank : nat) (IT : Z)
  (cx cpos : Constant Z) (pairs : list (Z * Z)) (shp : list Z) :
  Conform cx cpos = Some (pairs, shp) ->
  let positions := map (fun p => ToInt64 KIND (snd p)) pairs in
  let fold :=
    FoldIntrinsicFunction lib env ctx KIND rank (SpecificIntrinsic "btest")
      [Some (ArgExpr (IntegerConstant IT cx));
       Some (ArgExpr (IntegerConstant KIND cpos))] in
  fold
  = Ok (LogicalConstant KIND
          (mkConstant
             (map (fun p => BTEST lib IT (fst p) (ToInt64 KIND (snd p))) pairs)
             shp),
        fold_left Say
          (map PositionDiagnostic (filter (PositionOutOfRange IT) positions))
          ctx) /\
  (Forall (fun pos => 0 <= pos < bits IT) positions ->
   fold
   = Ok (LogicalConstant KIND
           (mkConstant
              (map (fun p => BTEST lib IT (fst p) (ToInt64 KIND (snd p)))
                   pairs)
              shp),
         ctx)).
Proof.
  intros Hconf positions fold.
  assert (Hfold :
            fold
            = Ok (LogicalConstant KIND
                    (mkConstant
                       (map (fun p =>
                               BTEST lib IT (fst p) (ToInt64 KIND (snd p)))
                            pairs)
                       shp),
                  fold_left Say
                    (map PositionDiagnostic
                       (filter (PositionOutOfRange IT) positions))
                    ctx)).
  { unfold fold; rewrite FoldIntrinsicFunction_btest.
    unfold UnwrapSome, FoldElementalIntrinsic2, IntegerArgument.
    cbn [arg nth_error UnwrapExpr HasCategory GetType category
         TypeCategory_eqb KindOf kind].
    rewrite !Z.eqb_refl, Hconf, MapScalar_btestScalar; reflexivity. }
  split; [exact Hfold|].
  intros Hin; rewrite Hfold.
  rewrite (positions_in_range IT positions Hin); reflexivity.
Qed.

(** The fold of a bit-pattern compare of two conformable integer
    constants, in terms of the comparison chosen by name. *)
Lemma BitCompare_constants
  (ctx : FoldingContext) (KIND : Z) (rank : nat) (name : string)
  (fptr : Z -> Z -> bool)
  (kx ky : Z) (cx cy : Constant Z) (pairs : list (Z * Z)) (shp : list Z) :
  In name BitCompareNames ->
  BitCompare name = Some fptr ->
  Conform cx cy = Some (pairs, shp) ->
  FoldIntrinsicFunction lib env ctx KIND rank (SpecificIntrinsic name)
    [Some (ArgExpr (IntegerConstant kx cx));
     Some (ArgExpr (IntegerConstant ky cy))]
  = Ok (LogicalConstant KIND
          (mkConstant
             (map (fun p =>
                     fptr (value (ConvertUnsigned LargestInt (fst p)))
                          (value (ConvertUnsigned LargestInt (snd p))))
                  pairs)
             shp),
        ctx).
Proof.
  intros Hname Hf Hconf.
  rewrite FoldIntrinsicFunction_bit_compare by assumption.
  cbn [arg nth_error constArg UnwrapExpr ZeroExtend].
  rewrite Hf; cbn [set_arg].
  unfold FoldElementalIntrinsic2, IntegerArgument.
  cbn [arg nth_error UnwrapExpr]; rewrite Z.eqb_refl.
  rewrite Conform_map, Hconf.
  rewrite (MapScalar_pure (fun p : Z * Z => fptr (fst p) (snd p))).
  rewrite map_map; reflexivity.
Qed.

(** On conformable integer constants BGE is the elementwise negation of
    BLT, and BGT that of BLE, whatever the kinds and the patterns. *)
Theorem BitCompare_complement
  (ctx : FoldingContext) (KIND : Z) (rank : nat)
  (kx ky : Z) (cx cy : Constant Z) (pairs : list (Z * Z)) (shp : list Z) :
  Conform cx cy = Some (pairs, shp) ->
  let fold name :=
    FoldIntrinsicFunction lib env ctx KIND rank (SpecificIntrinsic name)
      [Some (ArgExpr (IntegerConstant kx cx));
       Some (ArgExpr (IntegerConstant ky cy))] in
  exists lt le,
    fold "blt" = Ok (LogicalConstant KIND (mkConstant lt shp), ctx) /\
    fold "bge" = Ok (LogicalConstant KIND (mkConstant (map negb lt) shp), ctx) /\
    fold "ble" = Ok (LogicalConstant KIND (mkConstant le shp), ctx) /\
    fold "bgt" = Ok (LogicalConstant KIND (mkConstant (map negb le) shp), ctx) /\
    List.length lt = List.length pairs /\
    List.length le = List.length pairs.
Proof.
  intros Hconf fold.
  exists (map (fun p =>
                 BLT (value (ConvertUnsigned LargestInt (fst p)))
                     (value (ConvertUnsigned LargestInt (snd p)))) pairs),
         (map (fun p =>
                 BLE (value (ConvertUnsigned LargestInt (fst p)))
                     (value (ConvertUnsigned LargestInt (snd p)))) pairs).
  unfold fold.
  rewrite (BitCompare_constants ctx KIND rank "blt" BLT kx ky cx cy pairs shp)
    by (try reflexivity; try assumption; cbn; tauto).
  rewrite (BitCompare_constants ctx KIND rank "bge" BGE kx ky cx cy pairs shp)
    by (try reflexivity; try assumption; cbn; tauto).
  rewrite (BitCompare_constants ctx KIND rank "ble" BLE kx ky cx cy pairs shp)
    by (try reflexivity; try assumption; cbn; tauto).
  rewrite (BitCompare_constants ctx KIND rank "bgt" BGT kx ky cx cy pairs shp)
    by (try reflexivity; try assumption; cbn; tauto).
  rewrite !map_map; unfold BGE, BGT, BLE, BLT.
  repeat split; try apply length_map; do 4 f_equal;
    apply map_ext; intros p;
    [apply Z.leb_antisym | apply Z.ltb_antisym].
Qed.

(** [ZeroExtend] keeps the shape and the number of elements, yields
    128-bit patterns only, and leaves the patterns of an integer kind
    unchanged. *)
Theorem ZeroExtend_keeps_patterns (c : Constant Z) :
  exists c',
    @ZeroExtend R c = Some (IntegerConstant LargestInt c') /\
    shape c' = shape c /\
    List.length (values c') = List.length (values c) /\
    Forall (fun v => 0 <= v < 2 ^ bits LargestInt) (values c') /\
    (forall k,
        0 < k <= LargestInt ->
        Forall (fun v => 0 <= v < 2 ^ bits k) (values c) ->
        values c' = values c).
Proof.
  eexists; split; [reflexivity|]; cbn [shape values].
  repeat split.
  - apply length_map.
  - apply Forall_forall; intros v Hv.
    apply in_map_iff in Hv as (u & <- & _); cbn [value ConvertUnsigned].
    apply Z.mod_pos_bound, Z.pow_pos_nonneg; unfold bits, LargestInt; lia.
  - intros k Hk Hrange.
    rewrite <- (map_id (values c)) at 2.
    apply map_ext_in; intros v Hv.
    rewrite Forall_forall in Hrange.
    apply (zero_extension_exact k); auto.
Qed.

End RuleProperties.

(** ** The operation folders *)

Lemma scalar_value_constant {R} (e : Expr R) :
  IsActuallyConstant e = false ->
  GetScalarInteger e = None /\ GetScalarReal e = None /\
  GetScalarComplex e = None /\ GetScalarCharacter e = None /\
  GetScalarLogical e = None.
Proof. destruct e; intros H; try discriminate; repeat split. Qed.

Lemma ApplyElementwise_scalars {R} (env : Collaborators R)
  (ctx : FoldingContext) (operation : Expr R) (operands : list (Expr R)) :
  Forall (fun x => Rank x = O) operands ->
  ApplyElementwise env ctx operation operands = None.
Proof.
  intros H; unfold ApplyElementwise.
  replace (forallb _ operands) with true; [reflexivity|].
  symmetry; apply forallb_forall; intros x Hx.
  rewrite Forall_forall in H; rewrite (H x Hx); reflexivity.
Qed.

Section OperationLaws.

Variable R : Type.
Variable lib : ScalarLibrary R.
Variable env : Collaborators R.

(** The binary evaluator on two scalar logical constants. *)
Lemma FoldLogicalOperation_constants
  (ctx : FoldingContext) (KIND : Z) (op : LogicalOperator.t)
  (x y : Expr R) (a b : bool) :
  GetScalarLogical x = Some a ->
  GetScalarLogical y = Some b ->
  FoldLogicalOperation env ctx KIND op x y
  = match op with
    | LogicalOperator.And => Ok (LogicalScalar KIND (a && b))
    | LogicalOperator.Or => Ok (LogicalScalar KIND (a || b))
    | LogicalOperator.Eqv => Ok (LogicalScalar KIND (Bool.eqb a b))
    | LogicalOperator.Neqv => Ok (LogicalScalar KIND (negb (Bool.eqb a b)))
    | LogicalOperator.Not => Abort "not a binary operator"
    end.
Proof.
  intros Hx Hy; unfold FoldLogicalOperation.
  rewrite ApplyElementwise_constants
    by (repeat constructor; eauto using GetScalarLogical_constant).
  rewrite Hx, Hy; destruct op; reflexivity.
Qed.

Lemma FoldNot_constant (ctx : FoldingContext) (KIND : Z) (x : Expr R)
  (a : bool) :
  GetScalarLogical x = Some a ->
  FoldNot env ctx KIND x = LogicalScalar KIND (negb a).
Proof.
  intros Hx; unfold FoldNot.
  rewrite ApplyElementwise_constants
    by (repeat constructor; eauto using GetScalarLogical_constant).
  rewrite Hx; reflexivity.
Qed.

(** For complex operands the folder only asks whether the operator is EQ:
    EQ folds to the equality of the two values and every other operator,
    LT, LE, GT and GE included, folds to its negation, as NE does. *)
Theorem Complex_relational_is_equality
  (ctx : FoldingContext) (k : Z) (opr : RelationalOperator.t)
  (x y : Expr R) (a b : R * R) :
  GetScalarComplex x = Some a ->
  GetScalarComplex y = Some b ->
  FoldRelational lib env ctx (mkType Complex k) opr x y
  = LogicalScalar LogicalResult
      match opr with
      | RelationalOperator.EQ => Equals lib a b
      | _ => negb (Equals lib a b)
      end.
Proof.
  intros Hx Hy; unfold FoldRelational.
  rewrite ApplyElementwise_constants.
  - unfold RelationalResult; cbn [category]; rewrite Hx, Hy.
    destruct opr, (Equals lib a b); reflexivity.
  - repeat constructor; [destruct x | destruct y]; try discriminate;
      reflexivity.
Qed.

(** Folding Not twice gives back the value of a scalar logical constant
    (as a scalar constant of the kind asked for). *)
Theorem FoldNot_involution
  (ctx : FoldingContext) (KIND KIND' : Z) (x : Expr R) (a : bool) :
  GetScalarLogical x = Some a ->
  FoldNot env ctx KIND x = LogicalScalar KIND (negb a) /\
  FoldNot env ctx KIND' (FoldNot env ctx KIND x) = LogicalScalar KIND' a.
Proof.
  intros Hx; rewrite (FoldNot_constant ctx KIND x a Hx); split;
    [reflexivity|].
  rewrite (FoldNot_constant ctx KIND' _ (negb a)) by reflexivity.
  rewrite negb_involutive; reflexivity.
Qed.

Lemma ScalarLeaf_rank (e : Expr R) : ScalarLeaf e = true -> Rank e = O.
Proof.
  destruct e; try discriminate; cbn [ScalarLeaf Rank];
    try (destruct c as [vs [|n s]]; [reflexivity|];
         unfold GetScalarValue; cbn [shape values]; discriminate).
  destruct rank; [reflexivity|discriminate].
Qed.


(** The folders agree with the algebra of the connectives on scalar
    constants: the four binary operators are symmetric in their operands,
    Neqv is the folded negation of Eqv, and the folded negation of And is
    the Or of the folded negations. *)
Theorem Logical_connectives_compose
  (ctx : FoldingContext) (KIND : Z) (x y : Expr R) (a b : bool) :
  GetScalarLogical x = Some a ->
  GetScalarLogical y = Some b ->
  let fold op := FoldLogicalOperation env ctx KIND op in
  (forall op, fold op x y = fold op y x) /\
  (exists e,
      fold LogicalOperator.Eqv x y = Ok e /\
      fold LogicalOperator.Neqv x y = Ok (FoldNot env ctx KIND e)) /\
  (exists e,
      fold LogicalOperator.And x y = Ok e /\
      fold LogicalOperator.Or (FoldNot env ctx KIND x) (FoldNot env ctx KIND y)
      = Ok (FoldNot env ctx KIND e)).
Proof.
  intros Hx Hy fold; unfold fold; repeat split.
  - intros op.
    rewrite (FoldLogicalOperation_constants ctx KIND op x y a b Hx Hy).
    rewrite (FoldLogicalOperation_constants ctx KIND op y x b a Hy Hx).
    destruct op, a, b; reflexivity.
  - eexists; split.
    + exact (FoldLogicalOperation_constants ctx KIND _ x y a b Hx Hy).
    + rewrite (FoldLogicalOperation_constants ctx KIND _ x y a b Hx Hy).
      rewrite (FoldNot_constant ctx KIND _ (Bool.eqb a b)) by reflexivity.
      reflexivity.
  - eexists; split.
    + exact (FoldLogicalOperation_constants ctx KIND _ x y a b Hx Hy).
    + rewrite (FoldNot_constant ctx KIND x a Hx).
      rewrite (FoldNot_constant ctx KIND y b Hy).
      rewrite (FoldLogicalOperation_constants ctx KIND _ _ _ (negb a) (negb b))
        by reflexivity.
      rewrite (FoldNot_constant ctx KIND _ (a && b)) by reflexivity.
      rewrite negb_andb; reflexivity.
Qed.

(** For scalar constants whose comparison is ordered (integers,
    characters, and reals the library does not report as unordered)
    exactly one of LT, EQ and GT folds to true, and GE, NE and LE fold to
    the negations of LT, EQ and GT. *)
Theorem Ordered_relational_laws
  (ctx : FoldingContext) (T : DynamicType) (x y : Expr R) :
  (category T = Integer /\
   exists a b, GetScalarInteger x = Some a /\ GetScalarInteger y = Some b) \/
  (category T = Character /\
   exists a b, GetScalarCharacter x = Some a /\ GetScalarCharacter y = Some b) \/
  (category T = Real /\
   exists a b, GetScalarReal x = Some a /\ GetScalarReal y = Some b /\
               Compare lib a b <> Relation.Unordered) ->
  let fold opr := FoldRelational lib env ctx T opr x y in
  exists lt eq gt,
    fold RelationalOperator.LT = LogicalScalar LogicalResult lt /\
    fold RelationalOperator.EQ = LogicalScalar LogicalResult eq /\
    fold RelationalOperator.GT = LogicalScalar LogicalResult gt /\
    fold RelationalOperator.GE = LogicalScalar LogicalResult (negb lt) /\
    fold RelationalOperator.NE = LogicalScalar LogicalResult (negb eq) /\
    fold RelationalOperator.LE = LogicalScalar LogicalResult (negb gt) /\
    ((lt = true /\ eq = false /\ gt = false) \/
     (lt = false /\ eq = true /\ gt = false) \/
     (lt = false /\ eq = false /\ gt = true)).
Proof.
  intros Hops fold.
  assert (Hconst : IsActuallyConstant x = true /\ IsActuallyConstant y = true).
  { destruct Hops as [(_ & a & b & Hx & Hy)
                     |[(_ & a & b & Hx & Hy)|(_ & a & b & Hx & Hy & _)]];
      destruct x; try discriminate; destruct y; try discriminate;
      split; reflexivity. }
  destruct Hconst as [Hcx Hcy].
  assert (Hfold : forall opr,
             fold opr
             = match RelationalResult lib T opr x y with
               | Some result => LogicalScalar LogicalResult result
               | None => Relational T opr x y
               end).
  { intros opr; unfold fold, FoldRelational.
    rewrite ApplyElementwise_constants by (repeat constructor; assumption).
    reflexivity. }
  destruct Hops as [(HT & a & b & Hx & Hy)
                   |[(HT & a & b & Hx & Hy)|(HT & a & b & Hx & Hy & Hord)]].
  - exists (SatisfiesOrdering RelationalOperator.LT
              (CompareSigned (kind T) a b)),
           (SatisfiesOrdering RelationalOperator.EQ
              (CompareSigned (kind T) a b)),
           (SatisfiesOrdering RelationalOperator.GT
              (CompareSigned (kind T) a b)).
    rewrite !Hfold; unfold RelationalResult; rewrite HT, Hx, Hy.
    destruct (CompareSigned (kind T) a b); cbn; repeat split; auto 10.
  - exists (SatisfiesOrdering RelationalOperator.LT
              (CharacterCompare lib a b)),
           (SatisfiesOrdering RelationalOperator.EQ
              (CharacterCompare lib a b)),
           (SatisfiesOrdering RelationalOperator.GT
              (CharacterCompare lib a b)).
    rewrite !Hfold; unfold RelationalResult; rewrite HT, Hx, Hy.
    destruct (CharacterCompare lib a b); cbn; repeat split; auto 10.
  - exists (Satisfies RelationalOperator.LT (Compare lib a b)),
           (Satisfies RelationalOperator.EQ (Compare lib a b)),
           (Satisfies RelationalOperator.GT (Compare lib a b)).
    rewrite !Hfold; unfold RelationalResult; rewrite HT, Hx, Hy.
    destruct (Compare lib a b); try congruence; cbn; repeat split; auto 10.
Qed.

End OperationLaws.

(** ** The character compares *)

Section CharacterCompares.

Variable R : Type.
Variable lib : ScalarLibrary R.
Variable env : Collaborators R.

(** LGE, LGT, LLE and LLT of two scalar character constants of the ASCII
    kind, with a driver that hands comparisons to the relational folder:
    the call folds to the GE, GT, LE, LT reading of the character
    comparison, so LGE is the negation of LLT and LGT that of LLE. *)
Theorem Character_compare_through_relational
  (ctx : FoldingContext) (rank : nat) (x y : Constant (list Z))
  (a b : list Z) :
  (forall c T opr l r,
      Fold env c (Relational T opr l r)
      = (FoldRelational lib env c T opr l r, c)) ->
  GetScalarValue x = Some a ->
  GetScalarValue y = Some b ->
  let fold name :=
    FoldIntrinsicFunction lib env ctx LogicalResult rank
      (SpecificIntrinsic name)
      [Some (ArgExpr (CharacterConstant 1 x));
       Some (ArgExpr (CharacterConstant 1 y))] in
  let folded v := Ok (LogicalScalar LogicalResult v, ctx) in
  exists lt le,
    fold "llt" = folded lt /\ fold "lge" = folded (negb lt) /\
    fold "lle" = folded le /\ fold "lgt" = folded (negb le) /\
    lt = SatisfiesOrdering RelationalOperator.LT (CharacterCompare lib a b) /\
    le = SatisfiesOrdering RelationalOperator.LE (CharacterCompare lib a b).
Proof.
  intros Hdriver Hx Hy fold folded.
  assert (Hfold : forall name,
             In name ["lge"; "lgt"; "lle"; "llt"] ->
             fold name
             = folded (SatisfiesOrdering (CharacterRelation name)
                         (CharacterCompare lib a b))).
  { intros name Hin; cbn [In] in Hin.
    repeat destruct Hin as [<-|Hin]; try contradiction;
      unfold fold, folded, FoldIntrinsicFunction, isOneOf;
      cbn [existsb String.eqb Ascii.eqb Bool.eqb orb];
      unfold UnwrapSome, ConvertToType, Ascii;
      cbn [arg nth_error UnwrapExpr HasCategory GetType category kind
           TypeCategory_eqb Z.eqb Pos.eqb andb];
      rewrite Z.eqb_refl, Hdriver; unfold FoldRelational;
      rewrite ApplyElementwise_constants by (repeat constructor);
      unfold RelationalResult; cbn [category GetScalarCharacter];
      rewrite Hx, Hy; reflexivity. }
  do 2 eexists.
  rewrite !Hfold by (cbn; tauto).
  unfold CharacterRelation; cbn [String.eqb Ascii.eqb Bool.eqb].
  repeat split; destruct (CharacterCompare lib a b); reflexivity.
Qed.

End CharacterCompares.

(** ** The further properties on the sample instance *)

(** OUT_OF_RANGE([1, 300], 0_1) is a vector of two results. *)
Lemma OutOfRange_constant_has_source_shape_witness :
  GetConstantExtents Sample.collaborators (DiscardMessages Sample.context)
    (IntegerConstant 4 (mkConstant [1; 300] [2]))
  = Some [2].
Proof.
  exact (proj1 (proj2
           (OutOfRange_constant_has_source_shape Sample.real Sample.library
              Sample.collaborators Sample.context
              (DiscardMessages Sample.context) Sample.context 4 0
              (IntegerConstant 4 (mkConstant [1; 300] [2]))
              (IntegerConstant 4 (mkConstant [1; 300] [2]))
              (Some (ArgExpr (Sample.int 1 0))) []
              4 (mkConstant [false; true] [2])
              eq_refl eq_refl))).
Defined.

(** OUT_OF_RANGE(127.5, 0_1, 1): an integer in the place of ROUND= is not
    a rounding request. *)
Lemma OutOfRange_round_of_other_type_witness :
  Sample.fold "out_of_range"
    [Sample.rl 4 (Sample.Halves 255); Sample.int 1 0; Sample.int 4 1]
  = Ok (LogicalScalar 4 false, Sample.context).
Proof.
  exact (OutOfRange_round_of_other_type Sample.real Sample.library
           Sample.collaborators Sample.context
           (DiscardMessages Sample.context) 4 0
           (Sample.rl 4 (Sample.Halves 255)) (Sample.int 1 0)
           4 (ScalarConstant (Sample.Halves 255)) []
           (Some (ArgExpr (Sample.int 4 1))) []
           eq_refl eq_refl eq_refl eq_refl).
Defined.

(** OUT_OF_RANGE(1.5, 0_1, [.TRUE., .FALSE.]) aborts. *)
Lemma OutOfRange_array_round_aborts_witness :
  Sample.fold "out_of_range"
    [Sample.rl 4 (Sample.Halves 3); Sample.int 1 0;
     LogicalConstant 4 (mkConstant [true; false] [2])]
  = Abort "bad optional access".
Proof.
  exact (OutOfRange_array_round_aborts Sample.real Sample.library
           Sample.collaborators Sample.context
           (DiscardMessages Sample.context) 4 0
           (Sample.rl 4 (Sample.Halves 3)) (Sample.int 1 0)
           4 (ScalarConstant (Sample.Halves 3))
           4 (mkConstant [true; false] [2]) []
           eq_refl eq_refl eq_refl).
Defined.

(** OUT_OF_RANGE(300, .TRUE.): a logical mold is no target type. *)
Lemma OutOfRange_other_categories_witness :
  Sample.fold "out_of_range" [Sample.int 4 300; Sample.lg true]
  = Ok (Sample.call "out_of_range" [Sample.int 4 300; Sample.lg true],
        Sample.context).
Proof.
  exact (OutOfRange_other_categories Sample.real Sample.library
           Sample.collaborators Sample.context
           (DiscardMessages Sample.context) 4 0
           (Sample.int 4 300) (Sample.int 4 300)
           (Some (ArgExpr (Sample.lg true))) []
           eq_refl (or_introl (conj eq_refl eq_refl))).
Defined.

(** The status -1 is an end of file and not an end of record. *)
Lemma Iostat_tests_exclusive_witness :
  exists ends eors,
    Sample.fold "is_iostat_end" [Sample.int 8 (-1)]
    = Ok (LogicalConstant 4 (mkConstant ends []), Sample.context) /\
    Sample.fold "is_iostat_eor" [Sample.int 8 (-1)]
    = Ok (LogicalConstant 4 (mkConstant eors []), Sample.context) /\
    List.length ends = 1%nat /\
    Forall2 (fun isEnd isEor => isEnd && isEor = false) ends eors.
Proof.
  refine (Iostat_tests_exclusive Sample.real Sample.library
            Sample.collaborators Sample.context 4 0
            [Some (ArgExpr (Sample.int 8 (-1)))]
            (ScalarConstant ((-1) mod 2 ^ bits 8)) _ eq_refl).
  discriminate.
Defined.

(** BTEST(5, [0, 99, 1]): three bits, one diagnostic. *)
Lemma BTEST_diagnostics_per_element_witness :
  Sample.fold "btest"
    [IntegerConstant 4 (ScalarConstant 5);
     IntegerConstant 4 (mkConstant [0; 99; 1] [3])]
  = Ok (LogicalConstant 4 (mkConstant [true; false; false] [3]),
        mkContext (Some [PositionDiagnostic 99])).
Proof.
  exact (proj1 (BTEST_diagnostics_per_element Sample.real Sample.library
                  Sample.collaborators Sample.context 4 0 4
                  (ScalarConstant 5) (mkConstant [0; 99; 1] [3])
                  [(5, 0); (5, 99); (5, 1)] [3] eq_refl)).
Defined.

(** BLT and BGE, BLE and BGT of 0xFF (8 bits) and 0x01 (32 bits). *)
Lemma BitCompare_complement_witness :
  exists lt le,
    Sample.fold "blt" [Sample.int 1 255; Sample.int 4 1]
    = Ok (LogicalConstant 4 (mkConstant lt []), Sample.context) /\
    Sample.fold "bge" [Sample.int 1 255; Sample.int 4 1]
    = Ok (LogicalConstant 4 (mkConstant (map negb lt) []), Sample.context) /\
    Sample.fold "ble" [Sample.int 1 255; Sample.int 4 1]
    = Ok (LogicalConstant 4 (mkConstant le []), Sample.context) /\
    Sample.fold "bgt" [Sample.int 1 255; Sample.int 4 1]
    = Ok (LogicalConstant 4 (mkConstant (map negb le) []), Sample.context) /\
    List.length lt = 1%nat /\ List.length le = 1%nat.
Proof.
  exact (BitCompare_complement Sample.real Sample.library
           Sample.collaborators Sample.context 4 0 1 4
           (ScalarConstant (255 mod 2 ^ bits 1))
           (ScalarConstant (1 mod 2 ^ bits 4))
           [(255, 1)] [] eq_refl).
Defined.

(** (1.0, 0.0) < (2.0, 0.0) folds as (1.0, 0.0) /= (2.0, 0.0) does. *)
Lemma Complex_relational_is_equality_witness :
  FoldRelational Sample.library Sample.collaborators Sample.context
    (mkType Complex 4) RelationalOperator.LT
    (ComplexConstant 4 (ScalarConstant (Sample.Halves 2, Sample.Halves 0)))
    (ComplexConstant 4 (ScalarConstant (Sample.Halves 4, Sample.Halves 0)))
  = LogicalScalar LogicalResult true.
Proof.
  exact (Complex_relational_is_equality Sample.real Sample.library
           Sample.collaborators Sample.context 4 RelationalOperator.LT
           (ComplexConstant 4
              (ScalarConstant (Sample.Halves 2, Sample.Halves 0)))
           (ComplexConstant 4
              (ScalarConstant (Sample.Halves 4, Sample.Halves 0)))
           (Sample.Halves 2, Sample.Halves 0)
           (Sample.Halves 4, Sample.Halves 0)
           eq_refl eq_refl).
Defined.

(** [.NOT. .NOT. .TRUE.] is [.TRUE.] again. *)
Lemma FoldNot_involution_witness :
  FoldNot Sample.collaborators Sample.context 4
    (FoldNot Sample.collaborators Sample.context 4 (Sample.lg true))
  = LogicalScalar 4 true.
Proof.
  exact (proj2 (FoldNot_involution Sample.real Sample.collaborators
                  Sample.context 4 4 (Sample.lg true) true eq_refl)).
Defined.

(** [.TRUE. .OR. .FALSE.] and [.FALSE. .OR. .TRUE.] fold alike. *)
Lemma Logical_connectives_compose_witness :
  FoldLogicalOperation Sample.collaborators Sample.context 4
    LogicalOperator.Or (Sample.lg true) (Sample.lg false)
  = FoldLogicalOperation Sample.collaborators Sample.context 4
      LogicalOperator.Or (Sample.lg false) (Sample.lg true).
Proof.
  exact (proj1 (Logical_connectives_compose Sample.real
                  Sample.collaborators Sample.context 4
                  (Sample.lg true) (Sample.lg false) true false
                  eq_refl eq_refl)
           LogicalOperator.Or).
Defined.

(** 3 against 5: LT alone is true. *)
Lemma Ordered_relational_laws_witness :
  exists lt eq gt,
    FoldRelational Sample.library Sample.collaborators Sample.context
      (mkType Integer 4) RelationalOperator.LT (Sample.int 4 3) (Sample.int 4 5)
    = LogicalScalar LogicalResult lt /\
    FoldRelational Sample.library Sample.collaborators Sample.context
      (mkType Integer 4) RelationalOperator.EQ (Sample.int 4 3) (Sample.int 4 5)
    = LogicalScalar LogicalResult eq /\
    FoldRelational Sample.library Sample.collaborators Sample.context
      (mkType Integer 4) RelationalOperator.GT (Sample.int 4 3) (Sample.int 4 5)
    = LogicalScalar LogicalResult gt /\
    FoldRelational Sample.library Sample.collaborators Sample.context
      (mkType Integer 4) RelationalOperator.GE (Sample.int 4 3) (Sample.int 4 5)
    = LogicalScalar LogicalResult (negb lt) /\
    FoldRelational Sample.library Sample.collaborators Sample.context
      (mkType Integer 4) RelationalOperator.NE (Sample.int 4 3) (Sample.int 4 5)
    = LogicalScalar LogicalResult (negb eq) /\
    FoldRelational Sample.library Sample.collaborators Sample.context
      (mkType Integer 4) RelationalOperator.LE (Sample.int 4 3) (Sample.int 4 5)
    = LogicalScalar LogicalResult (negb gt) /\
    ((lt = true /\ eq = false /\ gt = false) \/
     (lt = false /\ eq = true /\ gt = false) \/
     (lt = false /\ eq = false /\ gt = true)).
Proof.
  exact (Ordered_relational_laws Sample.real Sample.library
           Sample.collaborators Sample.context (mkType Integer 4)
           (Sample.int 4 3) (Sample.int 4 5)
           (or_introl
              (conj eq_refl
                 (ex_intro _ (3 mod 2 ^ bits 4)
                    (ex_intro _ (5 mod 2 ^ bits 4)
                       (conj eq_refl eq_refl)))))).
Defined.

(** "abc" against "abd": LLT is true, LGE false. *)
Lemma Character_compare_through_relational_witness :
  exists lt le,
    FoldIntrinsicFunction Sample.library RelationalDriver Sample.context
      LogicalResult 0 (SpecificIntrinsic "llt")
      [Some (ArgExpr (CharacterConstant 1 (ScalarConstant [97; 98; 99])));
       Some (ArgExpr (CharacterConstant 1 (ScalarConstant [97; 98; 100])))]
    = Ok (LogicalScalar LogicalResult lt, Sample.context) /\
    FoldIntrinsicFunction Sample.library RelationalDriver Sample.context
      LogicalResult 0 (SpecificIntrinsic "lge")
      [Some (ArgExpr (CharacterConstant 1 (ScalarConstant [97; 98; 99])));
       Some (ArgExpr (CharacterConstant 1 (ScalarConstant [97; 98; 100])))]
    = Ok (LogicalScalar LogicalResult (negb lt), Sample.context) /\
    FoldIntrinsicFunction Sample.library RelationalDriver Sample.context
      LogicalResult 0 (SpecificIntrinsic "lle")
      [Some (ArgExpr (CharacterConstant 1 (ScalarConstant [97; 98; 99])));
       Some (ArgExpr (CharacterConstant 1 (ScalarConstant [97; 98; 100])))]
    = Ok (LogicalScalar LogicalResult le, Sample.context) /\
    FoldIntrinsicFunction Sample.library RelationalDriver Sample.context
      LogicalResult 0 (SpecificIntrinsic "lgt")
      [Some (ArgExpr (CharacterConstant 1 (ScalarConstant [97; 98; 99])));
       Some (ArgExpr (CharacterConstant 1 (ScalarConstant [97; 98; 100])))]
    = Ok (LogicalScalar LogicalResult (negb le), Sample.context) /\
    lt = true /\ le = true.
Proof.
  exact (Character_compare_through_relational Sample.real Sample.library
           RelationalDriver Sample.context 0
           (ScalarConstant [97; 98; 99]) (ScalarConstant [97; 98; 100])
           [97; 98; 99] [97; 98; 100]
           (fun c T opr l r => eq_refl) eq_refl eq_refl).
Defined.

(** IS_CONTIGUOUS with its argument absent does not abort. *)
Lemma Dispatcher_never_aborts_witness :
  ResolvedCall (R := Sample.real) "is_contiguous" [None] = true /\
  FoldIntrinsicFunction Sample.library Sample.collaborators Sample.context
    4 0 (SpecificIntrinsic "is_contiguous") [None]
  <> Abort "std::out_of_range".
Proof.
  split; [reflexivity|].
  apply (Dispatcher_never_aborts Sample.real Sample.library
           Sample.collaborators Sample.context 4 0 "is_contiguous" [None]
           "std::out_of_range"); [reflexivity|discriminate].
Defined.

(** BTEST of a variable is returned as it is. *)
Lemma Unmet_precondition_returns_call_witness :
  ResolvedCall "btest"
    [Some (ArgExpr (Opaque (R := Sample.real) (mkType Integer 4) 0 "i"));
     Some (ArgExpr (Sample.int 4 0))]
  = true /\
  FoldIntrinsicFunction Sample.library Sample.collaborators Sample.context
    4 0 (SpecificIntrinsic "btest")
    [Some (ArgExpr (Opaque (mkType Integer 4) 0 "i"));
     Some (ArgExpr (Sample.int 4 0))]
  = Ok (Sample.call "btest"
          [Opaque (mkType Integer 4) 0 "i"; Sample.int 4 0],
        Sample.context).
Proof.
  split; [reflexivity|].
  exact (Unmet_precondition_returns_call Sample.real Sample.library
           Sample.collaborators Sample.context 4 0 "btest"
           [Some (ArgExpr (Opaque (mkType Integer 4) 0 "i"));
            Some (ArgExpr (Sample.int 4 0))]
           eq_refl eq_refl eq_refl).
Defined.

